(** * Federal-Parliament-Scraper: the [Member] class of [member.py]

    A shallow embedding of [member.py] and the properties of its
    identifier, its name matching and its JSON export.

    Conventions.
    - A Python [str] is represented by its UTF-8 encoding, a [string] of
      bytes.  Concatenation, formatting, comparison and the slice
      [hexdigest()[:10]] of an ASCII text act alike on both sides, and
      [s.encode('utf-8')] is the list of the bytes of [s].  A [str] holding
      a lone surrogate, on which [encode] raises, is outside this type.
    - Machine words of SHA-1 are [Z] with the wrap-around at [2^32] written
      out.
    - A member is a value: [activities] and [replaces] are the two lists
      [__init__] makes, and [set_replaces] takes the value of the list it
      is given; no list is shared between two fields.
    - The file system is a finite map from path to text, with the set of
      directories beside it; the export runs in a state and error monad.
      [os.makedirs] makes the directories above a path with the path, and
      is refused by a regular file on the way.
    - A [datetime] is naive.  Of [dateparser.parse] only the reading of the
      text that [isoformat] writes is modelled. *)

From Stdlib Require Import ZArith Ascii String List Lia.
From stdpp Require Import base option list gmap strings pretty.

Set Warnings "-register-all,-clear-no-such-hyp".
Local Open Scope Z_scope.

(** ** Bytes and text *)

Definition byte_of_ascii (c : ascii) : Z := Z.of_N (N_of_ascii c).
Definition ascii_of_byte (b : Z) : ascii := ascii_of_N (Z.to_N b).

(** [s.encode('utf-8')] *)
Fixpoint encode_utf8 (s : string) : list Z :=
  match s with
  | EmptyString => []
  | String c s' => byte_of_ascii c :: encode_utf8 s'
  end.

(** [s[:n]] *)
Fixpoint str_take (n : nat) (s : string) : string :=
  match n, s with
  | S n', String c s' => String c (str_take n' s')
  | _, _ => EmptyString
  end.

(** A text that does not start with the separator of paths *)
Definition starts_relative (x : string) : Prop :=
  ∃ c rest, x = String c rest ∧ c ≠ "/"%char.

(** A digit of a lower-case hexadecimal numeral *)
Definition is_lower_hex (c : ascii) : bool :=
  let b := byte_of_ascii c in
  ((48 <=? b) && (b <=? 57)) || ((97 <=? b) && (b <=? 102)).

Fixpoint str_forallb (p : ascii → bool) (s : string) : bool :=
  match s with
  | EmptyString => true
  | String c s' => p c && str_forallb p s'
  end.

(** ** SHA-1 (FIPS 180-1), as [hashlib.sha1] computes it *)

Module Sha1.

Definition w32 (x : Z) : Z := x mod 2 ^ 32.
Definition add32 (x y : Z) : Z := w32 (x + y).
Definition rotl (n x : Z) : Z :=
  w32 (Z.lor (Z.shiftl x n) (Z.shiftr x (32 - n))).
Definition not32 (x : Z) : Z := w32 (Z.lnot x).

(** The message followed by the bit 1, zeros up to 56 modulo 64 and the
    length in bits as a 64-bit big-endian integer. *)
Fixpoint be_bytes (n : nat) (x : Z) : list Z :=
  match n with
  | O => []
  | S n' => Z.land (Z.shiftr x (8 * Z.of_nat n')) 255 :: be_bytes n' x
  end.

Definition pad (msg : list Z) : list Z :=
  let len := Z.of_nat (length msg) in
  let zeros := Z.to_nat ((55 - len) mod 64) in
  msg ++ [128] ++ repeat 0 zeros ++ be_bytes 8 (8 * len).

Fixpoint be_words (n : nat) (bs : list Z) : list Z :=
  match n, bs with
  | S n', b0 :: b1 :: b2 :: b3 :: rest =>
      (Z.lor (Z.shiftl b0 24)
         (Z.lor (Z.shiftl b1 16) (Z.lor (Z.shiftl b2 8) b3)))
      :: be_words n' rest
  | _, _ => []
  end.

Definition f (t : nat) (b c d : Z) : Z :=
  if (t <? 20)%nat then Z.lor (Z.land b c) (Z.land (not32 b) d)
  else if (t <? 40)%nat then Z.lxor b (Z.lxor c d)
  else if (t <? 60)%nat then
    Z.lor (Z.land b c) (Z.lor (Z.land b d) (Z.land c d))
  else Z.lxor b (Z.lxor c d).

Definition k (t : nat) : Z :=
  if (t <? 20)%nat then 0x5A827999
  else if (t <? 40)%nat then 0x6ED9EBA1
  else if (t <? 60)%nat then 0x8F1BBCDC
  else 0xCA62C1D6.

Definition state : Type := Z * Z * Z * Z * Z.

(** [rounds n t win st]: rounds [t .. t+n-1]; [win] holds the sixteen
    words [W(t) .. W(t+15)] of the message schedule. *)
Fixpoint rounds (n t : nat) (win : list Z) (st : state) : state :=
  match n with
  | O => st
  | S n' =>
      let '(a, b, c, d, e) := st in
      let w := nth 0 win 0 in
      let w16 :=
        rotl 1 (Z.lxor (nth 13 win 0)
                  (Z.lxor (nth 8 win 0) (Z.lxor (nth 2 win 0) w))) in
      let tmp := add32 (add32 (add32 (add32 (rotl 5 a) (f t b c d)) e) w)
                   (k t) in
      rounds n' (S t) (tl win ++ [w16]) (tmp, a, rotl 30 b, c, d)
  end.

Definition block (st : state) (ws : list Z) : state :=
  let '(h0, h1, h2, h3, h4) := st in
  let '(a, b, c, d, e) := rounds 80 0 ws st in
  (add32 h0 a, add32 h1 b, add32 h2 c, add32 h3 d, add32 h4 e).

Fixpoint blocks (n : nat) (bs : list Z) (st : state) : state :=
  match n with
  | O => st
  | S n' => blocks n' (skipn 64 bs) (block st (be_words 16 bs))
  end.

Definition init : state :=
  (0x67452301, 0xEFCDAB89, 0x98BADCFE, 0x10325476, 0xC3D2E1F0).

Definition digest (msg : list Z) : state :=
  let p := pad msg in
  blocks (length p / 64)%nat p init.

Definition hex_digit (x : Z) : ascii :=
  ascii_of_byte (if x <? 10 then 48 + x else 87 + x).

Fixpoint hex_be (n : nat) (x : Z) : string :=
  match n with
  | O => EmptyString
  | S n' =>
      String (hex_digit (Z.land (Z.shiftr x (4 * Z.of_nat n')) 15))
        (hex_be n' x)
  end.

(** [sha_1.hexdigest()] after [sha_1.update(msg)] *)
Definition hexdigest (msg : list Z) : string :=
  let '(h0, h1, h2, h3, h4) := digest msg in
  (hex_be 8 h0 ++ hex_be 8 h1 ++ hex_be 8 h2 ++ hex_be 8 h3
     ++ hex_be 8 h4)%string.

End Sha1.

Local Open Scope string_scope.
Local Open Scope Z_scope.

(** ** Integers and dates as text *)

(** [str(n)] for a Python [int] *)
Definition str_of_int (n : Z) : string := pretty n.

Fixpoint str_repeat (c : ascii) (n : nat) : string :=
  match n with
  | O => EmptyString
  | S n' => String c (str_repeat c n')
  end.

(** ["%0wd" % n] for [0 <= n] *)
Definition zero_pad (w : nat) (n : Z) : string :=
  let s := str_of_int n in
  str_repeat "0"%char (w - String.length s) ++ s.

(** A naive [datetime.datetime] (no [tzinfo]). *)
Record datetime : Type := mk_datetime {
  year : Z;
  month : Z;
  day : Z;
  hour : Z;
  minute : Z;
  second : Z;
  microsecond : Z
}.

(** [d.isoformat()]: [YYYY-MM-DDTHH:MM:SS], followed by [.ffffff] when the
    microsecond is not zero. *)
Definition isoformat (d : datetime) : string :=
  zero_pad 4 (year d) ++ "-" ++ zero_pad 2 (month d) ++ "-"
    ++ zero_pad 2 (day d) ++ "T" ++ zero_pad 2 (hour d) ++ ":"
    ++ zero_pad 2 (minute d) ++ ":" ++ zero_pad 2 (second d)
    ++ (if microsecond d =? 0 then EmptyString
        else "." ++ zero_pad 6 (microsecond d)).

(** The values a [datetime.datetime] can have: a day of the calendar
    between the years 1 and 9999, and a time of the day. *)
Definition is_leap (y : Z) : bool :=
  (y mod 4 =? 0) && (negb (y mod 100 =? 0) || (y mod 400 =? 0)).

Definition days_in_month (y m : Z) : Z :=
  if m =? 2 then (if is_leap y then 29 else 28)
  else if (m =? 4) || (m =? 6) || (m =? 9) || (m =? 11) then 30
  else 31.

Definition valid_datetime (d : datetime) : bool :=
  (1 <=? year d) && (year d <=? 9999)
  && (1 <=? month d) && (month d <=? 12)
  && (1 <=? day d) && (day d <=? days_in_month (year d) (month d))
  && (0 <=? hour d) && (hour d <? 24)
  && (0 <=? minute d) && (minute d <? 60)
  && (0 <=? second d) && (second d <? 60)
  && (0 <=? microsecond d) && (microsecond d <? 1000000).

(** ** JSON values and [json.dumps] *)

(** What [json.dump] is given here: [None], [bool], [int], [str], [list],
    and [dict] with [str] keys in insertion order. *)
Inductive json : Type :=
| JNull
| JBool (b : bool)
| JInt (n : Z)
| JStr (s : string)
| JArr (items : list json)
| JObj (members : list (string * json)).

Module Json.

(** Code points of a UTF-8 text; [need] continuation bytes are awaited
    for the code point whose high bits are [acc]. *)
Fixpoint decode_utf8 (need : nat) (acc : Z) (bs : list Z) : list Z :=
  match bs with
  | [] => []
  | b :: bs' =>
      match need with
      | O =>
          if b <? 0x80 then b :: decode_utf8 0 0 bs'
          else if b <? 0xE0 then decode_utf8 1 (Z.land b 0x1F) bs'
          else if b <? 0xF0 then decode_utf8 2 (Z.land b 0x0F) bs'
          else decode_utf8 3 (Z.land b 0x07) bs'
      | S n =>
          let acc' := Z.lor (Z.shiftl acc 6) (Z.land b 0x3F) in
          match n with
          | O => acc' :: decode_utf8 0 0 bs'
          | S _ => decode_utf8 n acc' bs'
          end
      end
  end.

Fixpoint hex4 (n : nat) (x : Z) : string :=
  match n with
  | O => EmptyString
  | S n' =>
      String (Sha1.hex_digit (Z.land (Z.shiftr x (4 * Z.of_nat n')) 15))
        (hex4 n' x)
  end.

Definition backslash : string := String (ascii_of_byte 92) EmptyString.
Definition dquote : string := String (ascii_of_byte 34) EmptyString.

(** [ESCAPE_DCT] of [json.encoder] *)
Definition escape_short (c : Z) : option string :=
  if c =? 92 then Some (backslash ++ backslash)
  else if c =? 34 then Some (backslash ++ dquote)
  else if c =? 8 then Some (backslash ++ "b")
  else if c =? 12 then Some (backslash ++ "f")
  else if c =? 10 then Some (backslash ++ "n")
  else if c =? 13 then Some (backslash ++ "r")
  else if c =? 9 then Some (backslash ++ "t")
  else if c <? 32 then Some (backslash ++ "u" ++ hex4 4 c)
  else None.

(** [ensure_ascii=False]: only the quote, the backslash and the control
    characters are escaped. *)
Fixpoint escape_text (bs : list Z) : string :=
  match bs with
  | [] => EmptyString
  | b :: bs' =>
      match escape_short b with
      | Some e => e ++ escape_text bs'
      | None => String (ascii_of_byte b) (escape_text bs')
      end
  end.

(** [ensure_ascii=True]: every code point outside [' ' .. '~'] is
    written [\uXXXX], as a surrogate pair above [0xFFFF]. *)
Fixpoint escape_ascii (cps : list Z) : string :=
  match cps with
  | [] => EmptyString
  | c :: cps' =>
      match escape_short c with
      | Some e => e ++ escape_ascii cps'
      | None =>
          if c <? 127 then String (ascii_of_byte c) (escape_ascii cps')
          else if c <? 0x10000 then
            backslash ++ "u" ++ hex4 4 c ++ escape_ascii cps'
          else
            let n := c - 0x10000 in
            let s1 := Z.lor 0xd800 (Z.land (Z.shiftr n 10) 0x3ff) in
            let s2 := Z.lor 0xdc00 (Z.land n 0x3ff) in
            backslash ++ "u" ++ hex4 4 s1 ++ backslash ++ "u" ++ hex4 4 s2
              ++ escape_ascii cps'
      end
  end.

Definition quote (ensure_ascii : bool) (s : string) : string :=
  dquote
    ++ (if ensure_ascii then escape_ascii (decode_utf8 0 0 (encode_utf8 s))
        else escape_text (encode_utf8 s))
    ++ dquote.

(** [json.dumps(v, ensure_ascii=...)] with the default separators. *)
Fixpoint dumps (ensure_ascii : bool) (v : json) : string :=
  match v with
  | JNull => "null"
  | JBool true => "true"
  | JBool false => "false"
  | JInt n => str_of_int n
  | JStr s => quote ensure_ascii s
  | JArr items =>
      "[" ++ String.concat ", " (map (dumps ensure_ascii) items) ++ "]"
  | JObj members =>
      "{" ++ String.concat ", "
               (map (fun kv => quote ensure_ascii (fst kv) ++ ": "
                               ++ dumps ensure_ascii (snd kv)) members)
        ++ "}"
  end.

End Json.

(** ** Exceptions, the file system and the monad of the export *)

Inductive exn : Type :=
| KeyError (key : string)
| AttributeError (attr : string)
| FileExistsError (path : string)
| IsADirectoryError (path : string)
| NotADirectoryError (path : string).

Inductive result (A : Type) : Type :=
| Ok (a : A)
| Raise (e : exn).
Arguments Ok {A} a.
Arguments Raise {A} e.

#[export] Instance result_ret : MRet result := fun A a => Ok a.
#[export] Instance result_bind : MBind result := fun A B k c =>
  match c with
  | Ok a => k a
  | Raise e => Raise e
  end.

(** The directories made and the text of every file, by path.  A path is
    compared as it is written. *)
Record fs : Type := mk_fs {
  dirs : gset string;
  files : gmap string string
}.

Definition fs_empty : fs := mk_fs ∅ ∅.

(** A computation on the file system; what was written before an
    exception stays written. *)
Definition io (A : Type) : Type := fs → result A * fs.

#[export] Instance io_ret : MRet io := fun A a s => (Ok a, s).
#[export] Instance io_bind : MBind io := fun A B k c s =>
  match c s with
  | (Ok a, s') => k a s'
  | (Raise e, s') => (Raise e, s')
  end.

Definition io_lift {A : Type} (r : result A) : io A := fun s => (r, s).

(** [posixpath.split(p)]: [p] is cut after its last [/]; the head loses the
    slashes at its end, unless it is made of slashes only. *)
Fixpoint split_at_last_sep (p : string) : option (string * string) :=
  match p with
  | EmptyString => None
  | String c p' =>
      match split_at_last_sep p' with
      | Some (head, tail) => Some (String c head, tail)
      | None =>
          if Ascii.eqb c "/" then Some (String c EmptyString, p') else None
      end
  end.

(** [p.rstrip('/')] *)
Fixpoint rstrip_sep (p : string) : string :=
  match p with
  | EmptyString => EmptyString
  | String c p' =>
      match rstrip_sep p' with
      | EmptyString =>
          if Ascii.eqb c "/" then EmptyString else String c EmptyString
      | rest => String c rest
      end
  end.

Definition path_split (p : string) : string * string :=
  match split_at_last_sep p with
  | Some (head, tail) =>
      (match rstrip_sep head with
       | EmptyString => head
       | stripped => stripped
       end, tail)
  | None => (EmptyString, p)
  end.

(** The directories above [name], the nearest first: the heads
    [os.makedirs] goes up through, each the head of the one before.
    [fuel] bounds their number; a head is shorter than what it is the head
    of. *)
Fixpoint ancestors_from (fuel : nat) (name : string) : list string :=
  match fuel with
  | O => []
  | S fuel' =>
      let '(head, tail) := path_split name in
      let '(head, tail) :=
        if String.eqb tail EmptyString then path_split head
        else (head, tail) in
      if String.eqb head EmptyString || String.eqb tail EmptyString then []
      else head :: ancestors_from fuel' head
  end.

Definition ancestors (name : string) : list string :=
  ancestors_from (String.length name) name.

(** The directories that are there once [os.makedirs(path)] has returned:
    [path] and all that are above it. *)
Definition made_dirs (path : string) : gset string :=
  list_to_set (path :: ancestors path).

(** Going up from [child] through the directories [above] it: the path
    right under the first of them that is a regular file.  [os.mkdir] of
    that path is what raises [NotADirectoryError]. *)
Fixpoint refused (child : string) (above : list string)
    (contents : gmap string string) : option string :=
  match above with
  | [] => None
  | p :: above' =>
      if decide (p ∈ dom contents) then Some child
      else refused p above' contents
  end.

(** [os.makedirs(path, exist_ok=True)]: the directories above [path] that
    are missing are made, then [path] itself; no error for a directory that
    is there.  A regular file of the name [path] raises [FileExistsError];
    a regular file above [path] raises [NotADirectoryError], for the path
    right under it.  Nothing is made when it raises. *)
Definition makedirs (path : string) : io unit := fun s =>
  if decide (path ∈ dom (files s)) then (Raise (FileExistsError path), s)
  else
    match refused path (ancestors path) (files s) with
    | Some child => (Raise (NotADirectoryError child), s)
    | None => (Ok tt, mk_fs (made_dirs path ∪ dirs s) (files s))
    end.

(** [open(path, 'w+')]: the file is made, or emptied when it is there. *)
Definition open_w (path : string) : io unit := fun s =>
  if decide (path ∈ dirs s) then (Raise (IsADirectoryError path), s)
  else (Ok tt, mk_fs (dirs s) (<[path := EmptyString]> (files s))).

(** [json.dump(v, fp)] up to the end of the [with] block of [fp]: the text
    written through the handle is the content of its file. *)
Definition write (path text : string) : io unit := fun s =>
  (Ok tt, mk_fs (dirs s) (<[path := text]> (files s))).

(** [os.path.join(a, b)] of [posixpath] *)
Definition ends_with_sep (a : string) : bool :=
  match last (list_ascii_of_string a) with
  | Some c => Ascii.eqb c "/"
  | None => false
  end.

Definition path_join (a b : string) : string :=
  if String.prefix "/" b then b
  else if String.eqb a EmptyString || ends_with_sep a then a ++ b
  else a ++ "/" ++ b.

(** ** Insertion-ordered dictionaries *)

(** A [dict] with [str] keys, in insertion order; a key occurs once. *)
Definition dict (V : Type) : Type := list (string * V).

Fixpoint dict_get {V : Type} (k : string) (d : dict V) : option V :=
  match d with
  | [] => None
  | (k', v) :: d' => if String.eqb k' k then Some v else dict_get k d'
  end.

(** [d[k] = v] *)
Fixpoint dict_set {V : Type} (k : string) (v : V) (d : dict V) : dict V :=
  match d with
  | [] => [(k, v)]
  | (k', v') :: d' =>
      if String.eqb k' k then (k', v) :: d' else (k', v') :: dict_set k v d'
  end.

(** [f(d[k])] on a [defaultdict]: a missing key is entered last with the
    default value, then [f] acts on the value in place. *)
Fixpoint defaultdict_update {V : Type} (default : V) (k : string)
    (f : V → V) (d : dict V) : dict V :=
  match d with
  | [] => [(k, f default)]
  | (k', v) :: d' =>
      if String.eqb k' k then (k', f v) :: d'
      else (k', v) :: defaultdict_update default k f d'
  end.

(** ** [json.loads]

    The reader of the texts [json.dumps] writes: [null], [true], [false],
    integers, strings with their escapes, arrays and objects.  A number
    with a fraction or an exponent, and an escape for a lone surrogate, are
    not read ([None]).  [fuel] bounds the number of values and of
    characters gone through. *)
Module JsonLoad.

Definition is_ws (b : Z) : bool :=
  (b =? 32) || (b =? 9) || (b =? 10) || (b =? 13).

Fixpoint skip_ws (bs : list Z) : list Z :=
  match bs with
  | b :: bs' => if is_ws b then skip_ws bs' else bs
  | [] => []
  end.

(** [bs] without the bytes of [word] at its head. *)
Fixpoint expect (word : list Z) (bs : list Z) : option (list Z) :=
  match word, bs with
  | [], _ => Some bs
  | w :: word', b :: bs' => if w =? b then expect word' bs' else None
  | _ :: _, [] => None
  end.

Definition hex_val (b : Z) : option Z :=
  if (48 <=? b) && (b <=? 57) then Some (b - 48)
  else if (97 <=? b) && (b <=? 102) then Some (b - 87)
  else if (65 <=? b) && (b <=? 70) then Some (b - 55)
  else None.

Fixpoint hex_number (n : nat) (acc : Z) (bs : list Z) : option (Z * list Z) :=
  match n with
  | O => Some (acc, bs)
  | S n' =>
      match bs with
      | b :: bs' => d ← hex_val b; hex_number n' (16 * acc + d) bs'
      | [] => None
      end
  end.

Definition utf8_of_code_point (c : Z) : list Z :=
  if c <? 0x80 then [c]
  else if c <? 0x800 then
    [Z.lor 0xC0 (Z.shiftr c 6); Z.lor 0x80 (Z.land c 0x3F)]
  else if c <? 0x10000 then
    [Z.lor 0xE0 (Z.shiftr c 12);
     Z.lor 0x80 (Z.land (Z.shiftr c 6) 0x3F);
     Z.lor 0x80 (Z.land c 0x3F)]
  else
    [Z.lor 0xF0 (Z.shiftr c 18);
     Z.lor 0x80 (Z.land (Z.shiftr c 12) 0x3F);
     Z.lor 0x80 (Z.land (Z.shiftr c 6) 0x3F);
     Z.lor 0x80 (Z.land c 0x3F)].

(** What [\uXXXX] stands for, with the low surrogate that follows a high
    one. *)
Definition unicode_escape (bs : list Z) : option (list Z * list Z) :=
  '(c, rest) ← hex_number 4 0 bs;
  if (0xD800 <=? c) && (c <=? 0xDBFF) then
    rest ← expect [92; 117] rest;
    '(c2, rest) ← hex_number 4 0 rest;
    if (0xDC00 <=? c2) && (c2 <=? 0xDFFF) then
      Some (utf8_of_code_point
              (0x10000 + Z.lor (Z.shiftl (c - 0xD800) 10) (c2 - 0xDC00)),
            rest)
    else None
  else if (0xDC00 <=? c) && (c <=? 0xDFFF) then None
  else Some (utf8_of_code_point c, rest).

(** The bytes of a string up to its closing quote, the opening quote
    being read. *)
Fixpoint string_body (fuel : nat) (bs : list Z) (acc : list Z)
    : option (list Z * list Z) :=
  match fuel with
  | O => None
  | S fuel' =>
      match bs with
      | [] => None
      | b :: rest =>
          if b =? 34 then Some (acc, rest)
          else if b =? 92 then
            match rest with
            | [] => None
            | e :: rest' =>
                if e =? 117 then
                  '(cs, rest'') ← unicode_escape rest';
                  string_body fuel' rest'' (acc ++ cs)%list
                else
                  c ← (if e =? 34 then Some 34
                       else if e =? 92 then Some 92
                       else if e =? 47 then Some 47
                       else if e =? 98 then Some 8
                       else if e =? 102 then Some 12
                       else if e =? 110 then Some 10
                       else if e =? 114 then Some 13
                       else if e =? 116 then Some 9
                       else None);
                  string_body fuel' rest' (acc ++ [c])%list
            end
          else if b <? 32 then None
          else string_body fuel' rest (acc ++ [b])%list
      end
  end.

Definition text_of_bytes (bs : list Z) : string :=
  string_of_list_ascii (map ascii_of_byte bs).

Fixpoint digits (bs : list Z) (acc : Z) : Z * list Z :=
  match bs with
  | b :: bs' =>
      if (48 <=? b) && (b <=? 57) then digits bs' (10 * acc + (b - 48))
      else (acc, bs)
  | [] => (acc, [])
  end.

(** An integer: an optional sign, then [0] or digits that do not start
    with [0], and neither [.] nor an exponent after them. *)
Definition integer (bs : list Z) : option (Z * list Z) :=
  let '(negative, bs) :=
    match bs with
    | 45 :: bs' => (true, bs')
    | _ => (false, bs)
    end in
  match bs with
  | b :: bs' =>
      if (48 <=? b) && (b <=? 57) then
        let '(n, rest) := if b =? 48 then (0, bs') else digits bs 0 in
        match rest with
        | c :: _ =>
            if (c =? 46) || (c =? 101) || (c =? 69) then None
            else Some (if negative : bool then - n else n, rest)
        | [] => Some (if negative : bool then - n else n, rest)
        end
      else None
  | [] => None
  end.

Fixpoint value (fuel : nat) (bs : list Z) : option (json * list Z) :=
  match fuel with
  | O => None
  | S fuel' =>
      match skip_ws bs with
      | [] => None
      | b :: rest =>
          if b =? 110 then rest ← expect [117; 108; 108] rest; Some (JNull, rest)
          else if b =? 116 then
            rest ← expect [114; 117; 101] rest; Some (JBool true, rest)
          else if b =? 102 then
            rest ← expect [97; 108; 115; 101] rest; Some (JBool false, rest)
          else if b =? 34 then
            '(cs, rest) ← string_body (length rest) rest [];
            Some (JStr (text_of_bytes cs), rest)
          else if b =? 91 then
            match skip_ws rest with
            | 93 :: rest' => Some (JArr [], rest')
            | _ => '(items, rest') ← elements fuel' rest [];
                   Some (JArr items, rest')
            end
          else if b =? 123 then
            match skip_ws rest with
            | 125 :: rest' => Some (JObj [], rest')
            | _ => '(members, rest') ← members fuel' rest [];
                   Some (JObj members, rest')
            end
          else '(n, rest) ← integer (b :: rest); Some (JInt n, rest)
      end
  end
with elements (fuel : nat) (bs : list Z) (acc : list json)
    : option (list json * list Z) :=
  match fuel with
  | O => None
  | S fuel' =>
      '(v, rest) ← value fuel' bs;
      match skip_ws rest with
      | 44 :: rest' => elements fuel' rest' (acc ++ [v])%list
      | 93 :: rest' => Some ((acc ++ [v])%list, rest')
      | _ => None
      end
  end
with members (fuel : nat) (bs : list Z) (acc : dict json)
    : option (dict json * list Z) :=
  match fuel with
  | O => None
  | S fuel' =>
      match skip_ws bs with
      | 34 :: rest =>
          '(cs, rest) ← string_body (length rest) rest [];
          match skip_ws rest with
          | 58 :: rest =>
              '(v, rest) ← value fuel' rest;
              let acc := dict_set (text_of_bytes cs) v acc in
              match skip_ws rest with
              | 44 :: rest' => members fuel' rest' acc
              | 125 :: rest' => Some (acc, rest')
              | _ => None
              end
          | _ => None
          end
      | _ => None
      end
  end.

(** [json.loads(text)] *)
Definition loads (text : string) : option json :=
  let bs := encode_utf8 text in
  '(v, rest) ← value (S (length bs)) bs;
  match skip_ws rest with
  | [] => Some v
  | _ :: _ => None
  end.

End JsonLoad.

(** ** The collaborators of [member.py] *)

(** [activity.Activity], as [Member] uses it: the attribute [date] and the
    method [dict(base_URI)], whose value [json.dump] writes. *)
Class ActivityOps (Activity : Type) : Type := {
  Activity_date : Activity → datetime;
  Activity_dict : Activity → string → json
}.

(** An entry of [replaces]: [{'member': ..., 'dates': ...}] *)
Record replacement : Type := mk_replacement {
  rep_member : string;
  rep_dates : json
}.

(** The static record [from_json] reads.  A field is [None] when the
    mapping has no such key; [wiki], [alternative_names] and [photo_url]
    may be there with the value [null]. *)
Record json_entry : Type := mk_json_entry {
  je_first_name : option string;
  je_last_name : option string;
  je_party : option string;
  je_province : option string;
  je_language : option string;
  je_wiki : option (option string);
  je_alternative_names : option (option (list string));
  je_gender : option string;
  je_date_of_birth : option string;
  je_photo_url : option (option string)
}.

(** [json_entry[key]] *)
Definition getitem {A : Type} (key : string) (field : option A) : result A :=
  match field with
  | Some v => Ok v
  | None => Raise (KeyError key)
  end.

(** [json_entry.get(key)] *)
Definition get {A : Type} (field : option (option A)) : option A :=
  match field with
  | Some v => v
  | None => None
  end.

(** A mapping read by [json.load], seen as a static record.  [None] when
    it is no object or when the value of a key has another type than the
    one [Member.__init__] is annotated with. *)
Definition entry_str (key : string) (members : dict json)
    : option (option string) :=
  match dict_get key members with
  | None => Some None
  | Some (JStr s) => Some (Some s)
  | Some _ => None
  end.

Definition entry_optional_str (key : string) (members : dict json)
    : option (option (option string)) :=
  match dict_get key members with
  | None => Some None
  | Some JNull => Some (Some None)
  | Some (JStr s) => Some (Some (Some s))
  | Some _ => None
  end.

Fixpoint strings_of (items : list json) : option (list string) :=
  match items with
  | [] => Some []
  | JStr s :: items' => l ← strings_of items'; Some (s :: l)
  | _ :: _ => None
  end.

Definition entry_optional_list (key : string) (members : dict json)
    : option (option (option (list string))) :=
  match dict_get key members with
  | None => Some None
  | Some JNull => Some (Some None)
  | Some (JArr items) => l ← strings_of items; Some (Some (Some l))
  | Some _ => None
  end.

Definition json_entry_of (doc : json) : option json_entry :=
  match doc with
  | JObj members =>
      first_name ← entry_str "first_name" members;
      last_name ← entry_str "last_name" members;
      party ← entry_str "party" members;
      province ← entry_str "province" members;
      language ← entry_str "language" members;
      wiki ← entry_optional_str "wiki" members;
      alternative_names ← entry_optional_list "alternative_names" members;
      gender ← entry_str "gender" members;
      date_of_birth ← entry_str "date_of_birth" members;
      photo_url ← entry_optional_str "photo_url" members;
      Some {| je_first_name := first_name;
              je_last_name := last_name;
              je_party := party;
              je_province := province;
              je_language := language;
              je_wiki := wiki;
              je_alternative_names := alternative_names;
              je_gender := gender;
              je_date_of_birth := date_of_birth;
              je_photo_url := photo_url |}
  | _ => None
  end.

(** [key in json_entry] *)
Definition has_key (json_entry : json_entry) (key : string) : bool :=
  if String.eqb key "first_name" then bool_decide (is_Some (je_first_name json_entry))
  else if String.eqb key "last_name" then bool_decide (is_Some (je_last_name json_entry))
  else if String.eqb key "party" then bool_decide (is_Some (je_party json_entry))
  else if String.eqb key "province" then bool_decide (is_Some (je_province json_entry))
  else if String.eqb key "language" then bool_decide (is_Some (je_language json_entry))
  else if String.eqb key "wiki" then bool_decide (is_Some (je_wiki json_entry))
  else if String.eqb key "alternative_names" then
    bool_decide (is_Some (je_alternative_names json_entry))
  else if String.eqb key "gender" then bool_decide (is_Some (je_gender json_entry))
  else if String.eqb key "date_of_birth" then
    bool_decide (is_Some (je_date_of_birth json_entry))
  else if String.eqb key "photo_url" then bool_decide (is_Some (je_photo_url json_entry))
  else false.

(** The keys [from_json] reads with [json_entry[key]]. *)
Definition required_keys : list string :=
  ["date_of_birth"; "first_name"; "last_name"; "party"; "province";
   "language"; "wiki"; "gender"].

(** ** The class [Member] *)

Section MemberClass.

Context {Activity : Type} `{ActivityOps Activity}.

(** [util.normalize_str], which returns [bytes], and [dateparser.parse],
    which returns [None] for a text it cannot read. *)
Variable normalize_str : string → string.
Variable dateparser_parse : string → option datetime.

Record Member : Type := mk_Member {
  first_name : string;
  last_name : string;
  party : string;
  province : string;
  language : string;
  alternative_names : option (list string);
  replaces : list replacement;
  activities : list Activity;
  url : option string;
  date_of_birth : option datetime;
  gender : string;
  photo_url : option string;
  uuid : string
}.

(** [Member.__init__]; [date_of_birth] is what [dateparser.parse] gave
    when the member comes from [from_json]. *)
Definition Member_init (first_name last_name party province language : string)
    (url : option string) (alternative_names : option (list string))
    (gender : string) (date_of_birth : option datetime)
    (photo_url : option string) : Member :=
  let sha_1 :=
    (encode_utf8 first_name ++ encode_utf8 last_name
       ++ encode_utf8 province)%list in
  {| first_name := first_name;
     last_name := last_name;
     party := party;
     province := province;
     language := language;
     alternative_names := alternative_names;
     replaces := [];
     activities := [];
     url := url;
     date_of_birth := date_of_birth;
     gender := gender;
     photo_url := photo_url;
     uuid := str_take 10 (Sha1.hexdigest sha_1) |}.

(** [Member.from_json] *)
Definition from_json (json_entry : json_entry) : result Member :=
  dob ← getitem "date_of_birth" (je_date_of_birth json_entry);
  let date_of_birth := dateparser_parse dob in
  a1 ← getitem "first_name" (je_first_name json_entry);
  a2 ← getitem "last_name" (je_last_name json_entry);
  a3 ← getitem "party" (je_party json_entry);
  a4 ← getitem "province" (je_province json_entry);
  a5 ← getitem "language" (je_language json_entry);
  a6 ← getitem "wiki" (je_wiki json_entry);
  let a7 := get (je_alternative_names json_entry) in
  a8 ← getitem "gender" (je_gender json_entry);
  let a10 := get (je_photo_url json_entry) in
  mret (Member_init a1 a2 a3 a4 a5 a6 a7 a8 date_of_birth a10).

(** [Member.uri] *)
Definition uri (self : Member) : string :=
  "members/" ++ uuid self ++ ".json".

(** [Member.post_activity] *)
Definition post_activity (self : Member) (activity : Activity) : Member :=
  {| first_name := first_name self;
     last_name := last_name self;
     party := party self;
     province := province self;
     language := language self;
     alternative_names := alternative_names self;
     replaces := replaces self;
     activities := (activities self ++ [activity])%list;
     url := url self;
     date_of_birth := date_of_birth self;
     gender := gender self;
     photo_url := photo_url self;
     uuid := uuid self |}.

(** [Member.set_replaces] *)
Definition set_replaces (self : Member) (new_replaces : list replacement)
    : Member :=
  {| first_name := first_name self;
     last_name := last_name self;
     party := party self;
     province := province self;
     language := language self;
     alternative_names := alternative_names self;
     replaces := new_replaces;
     activities := activities self;
     url := url self;
     date_of_birth := date_of_birth self;
     gender := gender self;
     photo_url := photo_url self;
     uuid := uuid self |}.

(** The loop over [self.alternative_names] in [has_name], which returns
    at the first name that matches. *)
Fixpoint alternative_match (query : string) (names : list string) : bool :=
  match names with
  | [] => false
  | n :: names' =>
      if String.eqb query (normalize_str n) then true
      else alternative_match query names'
  end.

(** [if self.alternative_names:], false for [None] and for [[]] *)
Definition truthy {A : Type} (l : option (list A)) : bool :=
  match l with
  | Some (_ :: _) => true
  | _ => false
  end.

(** [Member.has_name] *)
Definition has_name (self : Member) (query : string) : bool :=
  let query := normalize_str query in
  let name := normalize_str (last_name self ++ " " ++ first_name self) in
  if truthy (alternative_names self)
     && alternative_match query (default [] (alternative_names self))
  then true
  else if String.eqb query (normalize_str (last_name self)) then true
  else String.eqb query name
       || String.eqb query
            (normalize_str (first_name self ++ " " ++ last_name self)).

(** The digest [__init__] takes the identifier from, on the fields of a
    member. *)
Definition identity_digest (self : Member) : string :=
  Sha1.hexdigest
    (encode_utf8 (first_name self) ++ encode_utf8 (last_name self)
       ++ encode_utf8 (province self))%list.

(** The members a program can hold: made by the constructor or by
    [from_json], then changed by [post_activity] and [set_replaces]
    only. *)
Inductive constructed : Member → Prop :=
| constructed_init first_name last_name party province language url
    alternative_names gender date_of_birth photo_url :
    constructed
      (Member_init first_name last_name party province language url
         alternative_names gender date_of_birth photo_url)
| constructed_from_json json_entry self :
    from_json json_entry = Ok self → constructed self
| constructed_post_activity self activity :
    constructed self → constructed (post_activity self activity)
| constructed_set_replaces self new_replaces :
    constructed self → constructed (set_replaces self new_replaces).

End MemberClass.

Arguments Member Activity : clear implicits.

(** ** The export: [Member.dump_json] *)

Section DumpJson.

Context {Activity : Type} `{ActivityOps Activity}.

(** One turn of the loop over [self.activities]:
    [activity_dict[str(year)][isoformat].append(activity.dict(base_URI))] *)
Definition group_step (base_URI : string) (activity_dict : dict (dict (list json)))
    (activity : Activity) : dict (dict (list json)) :=
  defaultdict_update []
    (str_of_int (year (Activity_date activity)))
    (defaultdict_update []
       (isoformat (Activity_date activity))
       (fun bucket => (bucket ++ [Activity_dict activity base_URI])%list))
    activity_dict.

Definition group_activities (base_URI : string) (activities : list Activity)
    : dict (dict (list json)) :=
  foldl (group_step base_URI) [] activities.

(** The activities of the year [year_key] and the date [date_key], as
    [activity.dict(base_URI)] gives them, in the order of the list. *)
Definition bucket (base_URI year_key date_key : string)
    (activities : list Activity) : list json :=
  map (fun activity => Activity_dict activity base_URI)
    (filter
       (fun activity =>
          str_of_int (year (Activity_date activity)) = year_key
          ∧ isoformat (Activity_date activity) = date_key)
       activities).

(** [d[year_key][date_key]], when both keys are there. *)
Definition dict_get2 {V : Type} (year_key date_key : string)
    (d : dict (dict V)) : option V :=
  by_date ← dict_get year_key d; dict_get date_key by_date.

(** A bucket after more activities [more] for it have come. *)
Definition bucket_extend (o : option (list json)) (more : list json)
    : option (list json) :=
  match more with
  | [] => o
  | _ :: _ => Some (default [] o ++ more)%list
  end.

(** What [json.dump(activity_dict[year], afp)] is given. *)
Definition year_json (by_date : dict (list json)) : json :=
  JObj (map (fun kv => (fst kv, JArr (snd kv))) by_date).

(** The loop [for year in activity_dict], which writes the file of each
    year and enters its URI in [activity_uris]. *)
Fixpoint dump_years (activities_dir base_URI_members uuid : string)
    (years : dict (dict (list json))) (activity_uris : dict json)
    : io (dict json) :=
  match years with
  | [] => mret activity_uris
  | (year, by_date) :: years' =>
      let afp := path_join activities_dir (year ++ ".json") in
      _ ← open_w afp;
      _ ← write afp (Json.dumps true (year_json by_date));
      dump_years activities_dir base_URI_members uuid years'
        (dict_set year (JStr (base_URI_members ++ uuid ++ "/" ++ year ++ ".json"))
           activity_uris)
  end.

Definition json_of_option (o : option string) : json :=
  match o with
  | Some s => JStr s
  | None => JNull
  end.

(** [self.date_of_birth.isoformat()] *)
Definition date_of_birth_isoformat (self : Member Activity) : result string :=
  match date_of_birth self with
  | Some d => Ok (isoformat d)
  | None => Raise (AttributeError "isoformat")
  end.

(** The mapping written to the summary file. *)
Definition summary_json (self : Member Activity) (date_of_birth : string)
    (replaces : list json) (activity_uris : dict json) : json :=
  JObj [("id", JStr (uuid self));
        ("first_name", JStr (first_name self));
        ("last_name", JStr (last_name self));
        ("gender", JStr (gender self));
        ("date_of_birth", JStr date_of_birth);
        ("language", JStr (language self));
        ("province", JStr (province self));
        ("party", JStr (party self));
        ("wiki", json_of_option (url self));
        ("replaces", JArr replaces);
        ("activities", JObj activity_uris);
        ("photo_url", json_of_option (photo_url self))].

(** [Member.dump_json] *)
Definition dump_json (self : Member Activity) (base_path base_URI : string)
    : io string :=
  let base_path := path_join base_path "members" in
  let base_URI_members := base_URI ++ "members/" in
  let resource_name := uuid self ++ ".json" in
  _ ← makedirs base_path;
  let fp := path_join base_path resource_name in
  _ ← open_w fp;
  let replaces :=
    map (fun replacement =>
           JObj [("member",
                  JStr (base_URI_members ++ rep_member replacement ++ ".json"));
                 ("dates", rep_dates replacement)])
      (replaces self) in
  let activity_dict := group_activities base_URI (activities self) in
  let activities_dir := path_join base_path (uuid self) in
  _ ← makedirs activities_dir;
  activity_uris ←
    dump_years activities_dir base_URI_members (uuid self) activity_dict [];
  date_of_birth ← io_lift (date_of_birth_isoformat self);
  _ ← write fp
        (Json.dumps false
           (summary_json self date_of_birth replaces activity_uris));
  mret (base_URI_members ++ resource_name).

(** *** What an export writes, as a function of the member *)

Definition members_dir (base_path : string) : string :=
  path_join base_path "members".

Definition summary_path (self : Member Activity) (base_path : string)
    : string :=
  path_join (members_dir base_path) (uuid self ++ ".json").

Definition activities_dir (self : Member Activity) (base_path : string)
    : string :=
  path_join (members_dir base_path) (uuid self).

Definition year_path (self : Member Activity) (base_path year : string)
    : string :=
  path_join (activities_dir self base_path) (year ++ ".json").

Definition replaces_json (self : Member Activity) (base_URI : string)
    : list json :=
  map (fun replacement =>
         JObj [("member",
                JStr ((base_URI ++ "members/") ++ rep_member replacement
                        ++ ".json"));
               ("dates", rep_dates replacement)])
    (replaces self).

(** [activity_uris] after the loop over [years], from [activity_uris]. *)
Definition year_uris (self : Member Activity) (base_URI : string)
    (years : dict (dict (list json))) (activity_uris : dict json)
    : dict json :=
  foldl (fun uris y =>
           dict_set (fst y)
             (JStr ((base_URI ++ "members/") ++ uuid self ++ "/" ++ fst y
                      ++ ".json")) uris)
    activity_uris years.

(** The files of the years, in the order they are written. *)
Definition year_writes (self : Member Activity) (base_path : string)
    (years : dict (dict (list json))) : list (string * string) :=
  map (fun y => (year_path self base_path (fst y),
                 Json.dumps true (year_json (snd y)))) years.

(** The mapping of the summary file, for the date of birth [d]. *)
Definition summary_doc (self : Member Activity) (base_URI : string)
    (d : datetime) : json :=
  summary_json self (isoformat d) (replaces_json self base_URI)
    (year_uris self base_URI
       (group_activities base_URI (activities self)) []).

Definition summary_text (self : Member Activity) (base_URI : string)
    (d : datetime) : string :=
  Json.dumps false (summary_doc self base_URI d).

(** The summary file read again: its text, the mapping [json.load] makes
    of it, and the static record this mapping is. *)
Definition read_summary (json_loads : string → option json)
    (self : Member Activity) (base_path : string) (s : fs)
    : option json_entry :=
  text ← files s !! summary_path self base_path;
  doc ← json_loads text;
  json_entry_of doc.

(** Files after the writes [ws], the first of them first. *)
Definition write_all (ws : list (string * string))
    (contents : gmap string string) : gmap string string :=
  foldl (fun acc w => <[fst w := snd w]> acc) contents ws.

(** The text the writes [ws] leave at [path], if one of them is to it. *)
Fixpoint last_write (path : string) (ws : list (string * string))
    : option string :=
  match ws with
  | [] => None
  | w :: ws' =>
      match last_write path ws' with
      | Some text => Some text
      | None => if decide (fst w = path) then Some (snd w) else None
      end
  end.

(** Every write of an export, in order: the summary file is emptied when
    it is opened, the files of the years are written, and the summary is
    written last. *)
Definition dump_writes (self : Member Activity)
    (base_path base_URI : string) (d : datetime) : list (string * string) :=
  ((summary_path self base_path, EmptyString)
     :: year_writes self base_path
          (group_activities base_URI (activities self)))
    ++ [(summary_path self base_path, summary_text self base_URI d)].

(** The file system after an export that raised nothing. *)
Definition exported (self : Member Activity) (base_path base_URI : string)
    (d : datetime) (s : fs) : fs :=
  mk_fs
    (made_dirs (activities_dir self base_path)
       ∪ (made_dirs (members_dir base_path) ∪ dirs s))
    (write_all (dump_writes self base_path base_URI d) (files s)).

(** No step of the export raises: the member has a date of birth, no
    directory to make, and none above it, is a regular file, and no file to
    write is a directory. *)
Definition exportable (self : Member Activity)
    (base_path base_URI : string) (s : fs) : Prop :=
  is_Some (date_of_birth self)
  ∧ Forall (fun p => p ∉ dom (files s))
      (members_dir base_path :: ancestors (members_dir base_path))
  ∧ (summary_path self base_path
       ∉ made_dirs (members_dir base_path) ∪ dirs s)
  ∧ Forall
      (fun p =>
         p ∉ dom (<[summary_path self base_path := EmptyString]> (files s)))
      (activities_dir self base_path
         :: ancestors (activities_dir self base_path))
  ∧ Forall
      (fun y =>
         year_path self base_path (fst y)
           ∉ made_dirs (activities_dir self base_path)
               ∪ (made_dirs (members_dir base_path) ∪ dirs s))
      (group_activities base_URI (activities self)).

End DumpJson.

(** ** Instances of the collaborators, for the examples *)

(** Modelled from the spec: [normalize_str] of [util.py], which is not
    among the sources; the spec gives it as "a text-normalization primitive
    normalize(text) -> normalized_text stripping diacritics/case".  A letter
    of the Latin-1 supplement loses its diacritic, any other character
    outside ASCII is dropped, and what is left is lower-cased. *)
Module Normalize.

Definition base_letter (c : Z) : list Z :=
  let c := if (0xC0 <=? c) && (c <=? 0xDE) then c + 32 else c in
  if (0xE0 <=? c) && (c <=? 0xE5) then [97]
  else if c =? 0xE7 then [99]
  else if (0xE8 <=? c) && (c <=? 0xEB) then [101]
  else if (0xEC <=? c) && (c <=? 0xEF) then [105]
  else if c =? 0xF1 then [110]
  else if (0xF2 <=? c) && (c <=? 0xF6) then [111]
  else if (0xF9 <=? c) && (c <=? 0xFC) then [117]
  else if (c =? 0xFD) || (c =? 0xFF) then [121]
  else [].

Definition fold_code_point (c : Z) : list Z :=
  if c <? 0x80 then
    [if (65 <=? c) && (c <=? 90) then c + 32 else c]
  else base_letter c.

Definition normalize_str (text : string) : string :=
  string_of_list_ascii
    (map ascii_of_byte
       (concat (map fold_code_point
                  (Json.decode_utf8 0 0 (encode_utf8 text))))).

End Normalize.

(** A reader of the ISO-8601 form [YYYY-MM-DDTHH:MM:SS[.ffffff]], in the
    place of [dateparser.parse] in the examples. *)
Module IsoParse.

Definition digit (c : ascii) : option Z :=
  let b := byte_of_ascii c in
  if (48 <=? b) && (b <=? 57) then Some (b - 48) else None.

(** The number written by the [n] digits at the head of [cs], and what
    follows them. *)
Fixpoint number (n : nat) (acc : Z) (cs : list ascii)
    : option (Z * list ascii) :=
  match n with
  | O => Some (acc, cs)
  | S n' =>
      match cs with
      | c :: cs' => d ← digit c; number n' (10 * acc + d) cs'
      | [] => None
      end
  end.

Definition expect (c : ascii) (cs : list ascii) : option (list ascii) :=
  match cs with
  | c' :: cs' => if Ascii.eqb c c' then Some cs' else None
  | [] => None
  end.

Definition parse (text : string) : option datetime :=
  '(y, cs) ← number 4 0 (list_ascii_of_string text);
  cs ← expect "-" cs;
  '(mo, cs) ← number 2 0 cs;
  cs ← expect "-" cs;
  '(d, cs) ← number 2 0 cs;
  cs ← expect "T" cs;
  '(h, cs) ← number 2 0 cs;
  cs ← expect ":" cs;
  '(mi, cs) ← number 2 0 cs;
  cs ← expect ":" cs;
  '(s, cs) ← number 2 0 cs;
  match cs with
  | [] => Some (mk_datetime y mo d h mi s 0)
  | _ =>
      cs ← expect "." cs;
      '(us, cs) ← number 6 0 cs;
      match cs with
      | [] => Some (mk_datetime y mo d h mi s us)
      | _ => None
      end
  end.

End IsoParse.

(** [dateparser.parse], as far as the export needs it: a text in the form
    [isoformat] writes, for a date and time that [datetime] can hold, is
    read as that date and time.  What is made of any other text is
    [other_formats], of which nothing is said. *)
Module Dateparser.

Definition parse (other_formats : string → option datetime) (text : string)
    : option datetime :=
  match IsoParse.parse text with
  | Some d => if valid_datetime d then Some d else other_formats text
  | None => other_formats text
  end.

End Dateparser.

(** An [Activity] with a title, for the examples. *)
Record titled_activity : Type := mk_titled_activity {
  ta_date : datetime;
  ta_title : string
}.

#[export] Instance titled_activity_ops : ActivityOps titled_activity := {|
  Activity_date := ta_date;
  Activity_dict := fun a base_URI =>
    JObj [("title", JStr (ta_title a)); ("date", JStr (isoformat (ta_date a)))]
|}.

(** Members for the examples. *)
Definition jozef_nowak : Member titled_activity :=
  Member_init "Józef" "Nowak" "PS" "Luik" "fr" None None "M"
    (Some (mk_datetime 1975 4 12 0 0 0 0)) None.

Definition jan_kowalski : Member titled_activity :=
  Member_init "Jan" "Kowalski" "N-VA" "Antwerpen" "nl"
    (Some "https://nl.wikipedia.org/wiki/Jan_Kowalski") (Some ["J. Kowalski"])
    "M" (Some (mk_datetime 1970 2 3 0 0 0 0)) None.

Definition jan_entry : json_entry :=
  {| je_first_name := Some "Jan";
     je_last_name := Some "Kowalski";
     je_party := Some "N-VA";
     je_province := Some "Antwerpen";
     je_language := Some "nl";
     je_wiki := Some None;
     je_alternative_names := None;
     je_gender := Some "M";
     je_date_of_birth := Some "1970-02-03T00:00:00";
     je_photo_url := None |}.

Definition jan_entry_without_party : json_entry :=
  {| je_first_name := Some "Jan";
     je_last_name := Some "Kowalski";
     je_party := None;
     je_province := Some "Antwerpen";
     je_language := Some "nl";
     je_wiki := Some None;
     je_alternative_names := Some (Some ["J. Kowalski"]);
     je_gender := Some "M";
     je_date_of_birth := Some "1970-02-03T00:00:00";
     je_photo_url := Some None |}.

Definition question_2021 : titled_activity :=
  mk_titled_activity (mk_datetime 2021 1 1 10 0 0 0) "Question".

Definition vote_2022 : titled_activity :=
  mk_titled_activity (mk_datetime 2022 3 3 9 0 0 0) "Vote".

Definition jan_active : Member titled_activity :=
  post_activity (post_activity jan_kowalski question_2021) vote_2022.

(** The file system after the export of [jan_active] into an empty one. *)
Definition jan_exported : fs :=
  exported jan_active "out" "/" (mk_datetime 1970 2 3 0 0 0 0) fs_empty.

(** Jan Kowalski made by the constructor with [None] for his date of
    birth. *)
Definition jan_undated : Member titled_activity :=
  post_activity
    (Member_init "Jan" "Kowalski" "N-VA" "Antwerpen" "nl" None None "M"
       None None)
    question_2021.

(** ** Views of the code for the further properties *)

(** The elements of a list in the order in which they first occur. *)
Definition first_occurrences (l : list string) : list string :=
  reverse (remove_dups (reverse l)).

(** The first key, in the order in which [from_json] reads them, that the
    record lacks. *)
Definition first_missing (json_entry : json_entry) : option string :=
  List.find (fun key => negb (has_key json_entry key)) required_keys.

Section Views.

Context {Activity : Type} `{ActivityOps Activity}.

(** [str(activity.date.year)] *)
Definition year_key (activity : Activity) : string :=
  str_of_int (year (Activity_date activity)).

(** The number of entries in all the buckets of a grouping. *)
Definition bucket_count (d : dict (dict (list json))) : nat :=
  sum_list_with
    (fun y => sum_list_with (fun t => length (snd t)) (snd y)) d.

(** Nothing of the file system stands in the way of the export: no
    directory to make, and none above it, is a regular file, and no file to
    write is a directory. *)
Definition unobstructed (self : Member Activity)
    (base_path base_URI : string) (s : fs) : Prop :=
  Forall (fun p => p ∉ dom (files s))
    (members_dir base_path :: ancestors (members_dir base_path))
  ∧ (summary_path self base_path
       ∉ made_dirs (members_dir base_path) ∪ dirs s)
  ∧ Forall
      (fun p =>
         p ∉ dom (<[summary_path self base_path := EmptyString]> (files s)))
      (activities_dir self base_path
         :: ancestors (activities_dir self base_path))
  ∧ Forall
      (fun y =>
         year_path self base_path (fst y)
           ∉ made_dirs (activities_dir self base_path)
               ∪ (made_dirs (members_dir base_path) ∪ dirs s))
      (group_activities base_URI (activities self)).


(** The path of a file under [base_path] that a URI under [base_URI]
    stands for. *)
Definition year_relative (self : Member Activity) (year : string) : string :=
  "members/" ++ uuid self ++ "/" ++ year ++ ".json".

(** What [os.path.join(base_path, b)] puts before a relative [b]. *)
Definition base_prefix (base_path : string) : string :=
  if String.eqb base_path EmptyString || ends_with_sep base_path
  then base_path else base_path ++ "/".

(** The members of a JSON object. *)
Definition json_members (v : json) : dict json :=
  match v with
  | JObj members => members
  | _ => []
  end.

End Views.

(** Two members with other names and the same identifier: the three names
    are put together with nothing between them. *)
Definition anne_marie : Member titled_activity :=
  Member_init "Anne" "Marie" "PS" "Luik" "fr" None None "F" None None.

Definition ann_emarie : Member titled_activity :=
  Member_init "Ann" "eMarie" "MR" "Luik" "fr" None None "F" None None.

(** A namesake of Jan Kowalski in the same province. *)
Definition jan_namesake : Member titled_activity :=
  Member_init "Jan" "Kowalski" "Vooruit" "Antwerpen" "nl" None None "M"
    (Some (mk_datetime 1988 11 30 0 0 0 0)) None.


(** * Properties *)

(** ** The models of the libraries on known values *)

Example sha1_abc :
  Sha1.hexdigest (encode_utf8 "abc") = "a9993e364706816aba3e25717850c26c9cd0d89d"%string.
Proof. vm_compute. reflexivity. Qed.

Example sha1_empty :
  Sha1.hexdigest [] = "da39a3ee5e6b4b0d3255bfef95601890afd80709"%string.
Proof. vm_compute. reflexivity. Qed.

Example sha1_two_blocks :
  Sha1.hexdigest
    (encode_utf8 "abcdbcdecdefdefgefghfghighijhijkijkljklmklmnlmnomnopnopq")
  = "84983e441c3bd26ebaae4aa1f95129e5e54670f1"%string.
Proof. vm_compute. reflexivity. Qed.

Example isoformat_ex :
  isoformat (mk_datetime 2021 1 1 10 0 0 0) = "2021-01-01T10:00:00".
Proof. vm_compute. reflexivity. Qed.

Example dumps_ensure_ascii :
  Json.dumps true
    (JObj [("a", JArr [JInt 1; JNull; JBool true]); ("né", JStr "x/y")])
  = "{" ++ Json.dquote ++ "a" ++ Json.dquote ++ ": [1, null, true], "
      ++ Json.dquote ++ "n\u00e9" ++ Json.dquote ++ ": "
      ++ Json.dquote ++ "x/y" ++ Json.dquote ++ "}".
Proof. vm_compute. reflexivity. Qed.

Example dumps_utf8 :
  Json.dumps false (JArr [JStr "né"; JStr "€ 😀"])
  = "[" ++ Json.dquote ++ "né" ++ Json.dquote ++ ", "
      ++ Json.dquote ++ "€ 😀" ++ Json.dquote ++ "]".
Proof. vm_compute. reflexivity. Qed.

Example dumps_surrogates :
  Json.dumps true (JStr "€ 😀")
  = Json.dquote ++ "\u20ac \ud83d\ude00" ++ Json.dquote.
Proof. vm_compute. reflexivity. Qed.

Example path_join_ex :
  path_join "out" "members" = "out/members"
  ∧ path_join "out/" "members" = "out/members"
  ∧ path_join EmptyString "members" = "members"
  ∧ path_join "out" "/abs" = "/abs".
Proof. vm_compute. auto. Qed.

(** ** Text *)

Lemma str_length_app (s1 s2 : string) :
  String.length (s1 ++ s2) = (String.length s1 + String.length s2)%nat.
Proof. induction s1 as [|c s1 IH]; simpl; [reflexivity | now rewrite IH]. Qed.

Lemma str_forallb_app (p : ascii → bool) (s1 s2 : string) :
  str_forallb p (s1 ++ s2) = str_forallb p s1 && str_forallb p s2.
Proof.
  induction s1 as [|c s1 IH]; simpl; [reflexivity|].
  rewrite IH. now rewrite andb_assoc.
Qed.

Lemma str_take_length (n : nat) (s : string) :
  (n ≤ String.length s)%nat → String.length (str_take n s) = n.
Proof.
  revert s. induction n as [|n IH]; intros [|c s] Hle; simpl in *;
    try reflexivity; try lia.
  rewrite IH; [reflexivity | lia].
Qed.

Lemma str_take_forallb (p : ascii → bool) (n : nat) (s : string) :
  str_forallb p s = true → str_forallb p (str_take n s) = true.
Proof.
  revert s. induction n as [|n IH]; intros [|c s]; simpl; auto.
  intros [Hc Hs]%andb_prop. rewrite Hc. simpl. auto.
Qed.

Lemma encode_utf8_app (s1 s2 : string) :
  encode_utf8 (s1 ++ s2) = (encode_utf8 s1 ++ encode_utf8 s2)%list.
Proof. induction s1 as [|c s1 IH]; simpl; [reflexivity | now rewrite IH]. Qed.

(** ** The digest is forty lower-case hexadecimal digits *)

Lemma hex_digit_lower_hex (x : Z) :
  0 ≤ x < 16 → is_lower_hex (Sha1.hex_digit x) = true.
Proof.
  intros Hx.
  assert (Hcases : x = 0 ∨ x = 1 ∨ x = 2 ∨ x = 3 ∨ x = 4 ∨ x = 5 ∨ x = 6
                   ∨ x = 7 ∨ x = 8 ∨ x = 9 ∨ x = 10 ∨ x = 11 ∨ x = 12
                   ∨ x = 13 ∨ x = 14 ∨ x = 15) by lia.
  repeat (destruct Hcases as [-> | Hcases]; [reflexivity|]).
  subst x. reflexivity.
Qed.

Lemma nibble_range (x : Z) : 0 ≤ Z.land x 15 < 16.
Proof.
  change 15 with (Z.ones 4). rewrite Z.land_ones by lia.
  apply Z.mod_pos_bound. lia.
Qed.

Lemma hex_be_length (n : nat) (x : Z) : String.length (Sha1.hex_be n x) = n.
Proof. induction n as [|n IH]; simpl; [reflexivity | now rewrite IH]. Qed.

Lemma hex_be_lower_hex (n : nat) (x : Z) :
  str_forallb is_lower_hex (Sha1.hex_be n x) = true.
Proof.
  induction n as [|n IH]; [reflexivity|].
  cbn [Sha1.hex_be str_forallb].
  rewrite hex_digit_lower_hex by apply nibble_range.
  exact IH.
Qed.

Lemma hexdigest_length (msg : list Z) :
  String.length (Sha1.hexdigest msg) = 40%nat.
Proof.
  unfold Sha1.hexdigest.
  destruct (Sha1.digest msg) as [[[[h0 h1] h2] h3] h4].
  rewrite !str_length_app, !hex_be_length. reflexivity.
Qed.

Lemma hexdigest_lower_hex (msg : list Z) :
  str_forallb is_lower_hex (Sha1.hexdigest msg) = true.
Proof.
  unfold Sha1.hexdigest.
  destruct (Sha1.digest msg) as [[[[h0 h1] h2] h3] h4].
  rewrite !str_forallb_app, !hex_be_lower_hex. reflexivity.
Qed.

(** ** The identifier *)

Section Identity.

Context {Activity : Type}.
Variable dateparser_parse : string → option datetime.

Lemma from_json_inv (json_entry : json_entry) (self : Member Activity) :
  from_json dateparser_parse json_entry = Ok self →
  ∃ dob a1 a2 a3 a4 a5 a6 a8,
    je_date_of_birth json_entry = Some dob
    ∧ je_first_name json_entry = Some a1
    ∧ je_last_name json_entry = Some a2
    ∧ je_party json_entry = Some a3
    ∧ je_province json_entry = Some a4
    ∧ je_language json_entry = Some a5
    ∧ je_wiki json_entry = Some a6
    ∧ je_gender json_entry = Some a8
    ∧ self = Member_init a1 a2 a3 a4 a5 a6
               (get (je_alternative_names json_entry)) a8
               (dateparser_parse dob) (get (je_photo_url json_entry)).
Proof.
  unfold from_json. destruct json_entry as [f l p pr la w an g d ph].
  cbn [je_date_of_birth je_first_name je_last_name je_party je_province
       je_language je_wiki je_gender je_alternative_names je_photo_url].
  destruct d as [d|]; [|discriminate].
  destruct f as [f|]; [|discriminate].
  destruct l as [l|]; [|discriminate].
  destruct p as [p|]; [|discriminate].
  destruct pr as [pr|]; [|discriminate].
  destruct la as [la|]; [|discriminate].
  destruct w as [w|]; [|discriminate].
  destruct g as [g|]; [|discriminate].
  cbn. intros [= <-]. eauto 20.
Qed.

Lemma constructed_uuid (self : Member Activity) :
  constructed dateparser_parse self →
  uuid self = str_take 10 (identity_digest self).
Proof.
  induction 1 as [| je self Hje | self a _ IH | self r _ IH].
  - reflexivity.
  - apply from_json_inv in Hje
      as (dob & a1 & a2 & a3 & a4 & a5 & a6 & a8 & _ & _ & _ & _ & _ & _ & _
          & _ & ->).
    reflexivity.
  - exact IH.
  - exact IH.
Qed.

(** C1. The identifier of every member is the first ten characters of
    the lower-case hexadecimal SHA-1 digest of the UTF-8 bytes of the
    first name, the last name and the province, one after the other with
    nothing between; it is ten lower-case hexadecimal digits; and two
    members whose three names agree have the same identifier, whatever
    their other fields. *)
Theorem uuid_truncated_sha1 (m1 m2 : Member Activity) :
  constructed dateparser_parse m1 →
  constructed dateparser_parse m2 →
  (uuid m1
     = str_take 10
         (Sha1.hexdigest
            (encode_utf8 (first_name m1) ++ encode_utf8 (last_name m1)
               ++ encode_utf8 (province m1))%list)
   ∧ uuid m1
     = str_take 10
         (Sha1.hexdigest
            (encode_utf8 (first_name m1 ++ last_name m1 ++ province m1)))
   ∧ String.length (uuid m1) = 10%nat
   ∧ str_forallb is_lower_hex (uuid m1) = true)
  ∧ (first_name m1 = first_name m2 →
     last_name m1 = last_name m2 →
     province m1 = province m2 →
     uuid m1 = uuid m2).
Proof.
  intros H1 H2.
  pose proof (constructed_uuid m1 H1) as E1.
  pose proof (constructed_uuid m2 H2) as E2.
  unfold identity_digest in *.
  repeat split.
  - exact E1.
  - rewrite !encode_utf8_app. exact E1.
  - rewrite E1. apply str_take_length. rewrite hexdigest_length. lia.
  - rewrite E1. apply str_take_forallb, hexdigest_lower_hex.
  - intros Hf Hl Hp. rewrite E1, E2, Hf, Hl, Hp. reflexivity.
Qed.

End Identity.

(** ** Name matching *)

Section NameMatching.

Context {Activity : Type}.
Variable normalize_str : string → string.

Lemma has_name_unfold (self : Member Activity) (query : string) :
  has_name normalize_str self query
  = (truthy (alternative_names self)
     && alternative_match normalize_str (normalize_str query)
          (default [] (alternative_names self)))
    || String.eqb (normalize_str query) (normalize_str (last_name self))
    || String.eqb (normalize_str query)
         (normalize_str (last_name self ++ " " ++ first_name self))
    || String.eqb (normalize_str query)
         (normalize_str (first_name self ++ " " ++ last_name self)).
Proof.
  unfold has_name.
  destruct (truthy _ && alternative_match _ _ _); [reflexivity|].
  destruct (String.eqb _ (normalize_str (last_name self))); reflexivity.
Qed.

Lemma alternative_match_elem (query : string) (names : list string) :
  alternative_match normalize_str query names = true
  ↔ ∃ n, n ∈ names ∧ query = normalize_str n.
Proof.
  induction names as [|n names IH]; simpl.
  - split; [discriminate | intros (n & Hn & _); inversion Hn].
  - destruct (String.eqb query (normalize_str n)) eqn:E.
    + apply String.eqb_eq in E. split; [|reflexivity].
      intros _. exists n. split; [left | exact E].
    + apply String.eqb_neq in E. rewrite IH. split.
      * intros (n' & Hn' & Hq). exists n'. split; [now right | exact Hq].
      * intros (n' & Hn' & Hq). inversion Hn'; subst; [contradiction|].
        now exists n'.
Qed.

(** C3. Two queries that the normalisation maps to the same text get the
    same answer from [has_name], for every member. *)
Theorem has_name_normalized_query (self : Member Activity) (q1 q2 : string) :
  normalize_str q1 = normalize_str q2 →
  has_name normalize_str self q1 = has_name normalize_str self q2.
Proof. intros Hq. unfold has_name. rewrite Hq. reflexivity. Qed.

(** C7. When no alternative name has matched and the normalised query is
    the normalised last name, [has_name] answers [True]. *)
Theorem has_name_surname_only (self : Member Activity) (query : string) :
  truthy (alternative_names self)
    && alternative_match normalize_str (normalize_str query)
         (default [] (alternative_names self)) = false →
  normalize_str query = normalize_str (last_name self) →
  has_name normalize_str self query = true.
Proof.
  intros Halt Hq. unfold has_name. rewrite Halt, Hq, String.eqb_refl.
  reflexivity.
Qed.

(** The surname matches also when an alternative name did. *)
Lemma has_name_surname (self : Member Activity) (query : string) :
  normalize_str query = normalize_str (last_name self) →
  has_name normalize_str self query = true.
Proof.
  intros Hq. rewrite has_name_unfold, Hq, String.eqb_refl.
  rewrite orb_true_r. reflexivity.
Qed.

(** C10. A member with the empty list of alternative names and the member
    with the same fields and no list get the same answer from [has_name]
    for every query: the loop over the names is entered for neither. *)
Theorem has_name_no_alternatives
    (first_name last_name party province language : string)
    (replaces : list replacement) (activities : list Activity)
    (url : option string) (date_of_birth : option datetime)
    (gender : string) (photo_url : option string) (uuid query : string) :
  has_name normalize_str
    (@mk_Member Activity first_name last_name party province language
       (Some []) replaces activities url date_of_birth gender photo_url uuid)
    query
  = has_name normalize_str
      (@mk_Member Activity first_name last_name party province language
         None replaces activities url date_of_birth gender photo_url uuid)
      query
  ∧ truthy (Some (@nil string)) = false
  ∧ truthy (@None (list string)) = false.
Proof. repeat split. Qed.

End NameMatching.

(** The queries of C3 on the member Józef Nowak. *)
Lemma has_name_normalized_query_witness :
  Normalize.normalize_str "józef nowak" = Normalize.normalize_str "JOZEF NOWAK"
  ∧ has_name Normalize.normalize_str jozef_nowak "józef nowak"
    = has_name Normalize.normalize_str jozef_nowak "JOZEF NOWAK".
Proof.
  split.
  - vm_compute. reflexivity.
  - apply (has_name_normalized_query Normalize.normalize_str jozef_nowak).
    vm_compute. reflexivity.
Defined.

Example has_name_jozef :
  has_name Normalize.normalize_str jozef_nowak "józef nowak" = true
  ∧ has_name Normalize.normalize_str jozef_nowak "JOZEF NOWAK" = true
  ∧ has_name Normalize.normalize_str jozef_nowak "Nowak Józef" = true
  ∧ has_name Normalize.normalize_str jozef_nowak "Jozef Novak" = false.
Proof. vm_compute. auto. Qed.

(** Jan Kowalski matches the query [Kowalski]. *)
Lemma has_name_surname_only_witness :
  has_name Normalize.normalize_str
    (Member_init (Activity := titled_activity) "Jan" "Kowalski" "N-VA"
       "Antwerpen" "nl" None None "M" None None)
    "Kowalski" = true.
Proof.
  apply (has_name_surname_only Normalize.normalize_str); reflexivity.
Defined.

(** The same for every normalisation and every other field. *)
Example has_name_kowalski (Activity : Type) (normalize_str : string → string)
    (self : Member Activity) :
  last_name self = "Kowalski" →
  has_name normalize_str self "Kowalski" = true.
Proof. intros Hl. apply has_name_surname. now rewrite Hl. Qed.

(** ** Appending an activity *)

(** C9. [post_activity] puts the activity at the end of [activities], after
    the activities that were there, and changes no other field. *)
Theorem post_activity_frame (Activity : Type) (self : Member Activity)
    (activity : Activity) :
  activities (post_activity self activity)
  = (activities self ++ [activity])%list
  ∧ last (activities (post_activity self activity)) = Some activity
  ∧ take (length (activities self)) (activities (post_activity self activity))
    = activities self
  ∧ uuid (post_activity self activity) = uuid self
  ∧ first_name (post_activity self activity) = first_name self
  ∧ last_name (post_activity self activity) = last_name self
  ∧ party (post_activity self activity) = party self
  ∧ province (post_activity self activity) = province self
  ∧ language (post_activity self activity) = language self
  ∧ gender (post_activity self activity) = gender self
  ∧ date_of_birth (post_activity self activity) = date_of_birth self
  ∧ url (post_activity self activity) = url self
  ∧ photo_url (post_activity self activity) = photo_url self
  ∧ alternative_names (post_activity self activity) = alternative_names self
  ∧ replaces (post_activity self activity) = replaces self.
Proof.
  cbn [post_activity activities uuid first_name last_name party province
       language gender date_of_birth url photo_url alternative_names replaces].
  repeat split.
  - apply last_snoc.
  - apply take_app_length.
Qed.

(** ** Reading a static record *)

Section FromJson.

Context {Activity : Type}.
Variable dateparser_parse : string → option datetime.

Local Ltac in_required :=
  split; [repeat constructor | split; reflexivity].

(** C8. [from_json] raises [KeyError], for a key that is missing, on every
    record that lacks one of the required keys; it returns a member on
    every record that has them all, and there [alternative_names] and
    [photo_url] are [None] when their keys are missing. *)
Theorem from_json_keys (json_entry : json_entry) :
  ((∃ key, key ∈ required_keys ∧ has_key json_entry key = false) →
   ∃ key, key ∈ required_keys ∧ has_key json_entry key = false
          ∧ from_json (Activity := Activity) dateparser_parse json_entry
            = Raise (KeyError key))
  ∧ ((∀ key, key ∈ required_keys → has_key json_entry key = true) →
     ∃ self : Member Activity,
       from_json dateparser_parse json_entry = Ok self
       ∧ (has_key json_entry "alternative_names" = false →
          alternative_names self = None)
       ∧ (has_key json_entry "photo_url" = false → photo_url self = None)).
Proof.
  destruct json_entry as [f l p pr la w an g d ph].
  split.
  - intros (key & Hin & Hkey).
    destruct d as [d|]; [|exists "date_of_birth"; in_required].
    destruct f as [f|]; [|exists "first_name"; in_required].
    destruct l as [l|]; [|exists "last_name"; in_required].
    destruct p as [p|]; [|exists "party"; in_required].
    destruct pr as [pr|]; [|exists "province"; in_required].
    destruct la as [la|]; [|exists "language"; in_required].
    destruct w as [w|]; [|exists "wiki"; in_required].
    destruct g as [g|]; [|exists "gender"; in_required].
    exfalso. unfold required_keys in Hin.
    repeat (apply elem_of_cons in Hin as [-> | Hin];
            [vm_compute in Hkey; discriminate|]).
    inversion Hin.
  - intros Hall.
    assert (Hd := Hall "date_of_birth" ltac:(repeat constructor)).
    assert (Hf := Hall "first_name" ltac:(repeat constructor)).
    assert (Hl := Hall "last_name" ltac:(repeat constructor)).
    assert (Hp := Hall "party" ltac:(repeat constructor)).
    assert (Hpr := Hall "province" ltac:(repeat constructor)).
    assert (Hla := Hall "language" ltac:(repeat constructor)).
    assert (Hw := Hall "wiki" ltac:(repeat constructor)).
    assert (Hg := Hall "gender" ltac:(repeat constructor)).
    cbn in Hd, Hf, Hl, Hp, Hpr, Hla, Hw, Hg.
    destruct d as [d|]; [|discriminate].
    destruct f as [f|]; [|discriminate].
    destruct l as [l|]; [|discriminate].
    destruct p as [p|]; [|discriminate].
    destruct pr as [pr|]; [|discriminate].
    destruct la as [la|]; [|discriminate].
    destruct w as [w|]; [|discriminate].
    destruct g as [g|]; [|discriminate].
    eexists. split; [reflexivity|].
    split; cbn.
    + destruct an; [discriminate | reflexivity].
    + destruct ph; [discriminate | reflexivity].
Qed.

End FromJson.

(** A record without [party] raises [KeyError('party')]; the record of Jan
    Kowalski without the two optional keys gives a member. *)
Lemma from_json_keys_witness :
  (∃ key, key ∈ required_keys
          ∧ has_key jan_entry_without_party key = false
          ∧ from_json (Activity := titled_activity) IsoParse.parse
              jan_entry_without_party = Raise (KeyError key))
  ∧ (∃ self : Member titled_activity,
       from_json IsoParse.parse jan_entry = Ok self
       ∧ (has_key jan_entry "alternative_names" = false →
          alternative_names self = None)
       ∧ (has_key jan_entry "photo_url" = false → photo_url self = None)).
Proof.
  split.
  - apply (from_json_keys (Activity := titled_activity) IsoParse.parse
             jan_entry_without_party).
    exists "party". split; [repeat constructor | reflexivity].
  - apply (from_json_keys (Activity := titled_activity) IsoParse.parse
             jan_entry).
    intros key Hin. unfold required_keys in Hin.
    repeat (apply elem_of_cons in Hin as [-> | Hin]; [reflexivity|]).
    inversion Hin.
Defined.

Example from_json_party_missing :
  from_json (Activity := titled_activity) IsoParse.parse
    jan_entry_without_party = Raise (KeyError "party").
Proof. reflexivity. Qed.

(** ** The export *)

Lemma str_app_assoc (s1 s2 s3 : string) : (s1 ++ s2) ++ s3 = s1 ++ s2 ++ s3.
Proof.
  induction s1 as [|c s1 IH]; [reflexivity|].
  change (String c ((s1 ++ s2) ++ s3) = String c (s1 ++ s2 ++ s3)).
  now rewrite IH.
Qed.

Lemma elem_of_map {A B : Type} (f : A → B) (l : list A) (y : B) :
  y ∈ map f l ↔ ∃ x, y = f x ∧ x ∈ l.
Proof.
  rewrite list_elem_of_In, in_map_iff.
  split; intros (x & H1 & H2); exists x; (split; [now symmetry|]);
    now apply list_elem_of_In.
Qed.

(** *** The directories [makedirs] makes *)






Lemma Forall_made_dirs (path : string) (P : string → Prop) :
  Forall P (path :: ancestors path) ↔ ∀ p, p ∈ made_dirs path → P p.
Proof.
  rewrite Forall_forall. unfold made_dirs.
  split; intros HP p Hp; apply HP.
  - rewrite elem_of_list_to_set in Hp. exact Hp.
  - rewrite elem_of_list_to_set. exact Hp.
Qed.

Lemma refused_None (child : string) (above : list string)
    (contents : gmap string string) :
  refused child above contents = None
  ↔ Forall (fun p => p ∉ dom contents) above.
Proof.
  revert child. induction above as [|p above IH]; intros child;
    cbn [refused].
  - split; [constructor | reflexivity].
  - destruct (decide (p ∈ dom contents)) as [Hin|Hnin].
    + split; [discriminate|]. intros HF. inversion HF; subst. contradiction.
    + rewrite IH. split; [now constructor|]. intros HF. now inversion HF.
Qed.

Lemma makedirs_ok (path : string) (s : fs) :
  Forall (fun p => p ∉ dom (files s)) (path :: ancestors path) →
  makedirs path s = (Ok tt, mk_fs (made_dirs path ∪ dirs s) (files s)).
Proof.
  intros HF. inversion HF as [|? ? Hp Habove]; subst.
  unfold makedirs. rewrite decide_False by exact Hp.
  apply (refused_None path) in Habove. now rewrite Habove.
Qed.

Lemma makedirs_inv (path : string) (s : fs) (u : unit) (s' : fs) :
  makedirs path s = (Ok u, s') →
  Forall (fun p => p ∉ dom (files s)) (path :: ancestors path).
Proof.
  unfold makedirs. destruct (decide _) as [|Hp]; [discriminate|].
  destruct (refused _ _ _) eqn:E; [discriminate|].
  intros _. constructor; [exact Hp|]. now apply (refused_None path).
Qed.

(** A regular file above [path] makes [makedirs] raise, and nothing is
    made. *)
Lemma makedirs_refused (path : string) (s : fs) (above : string) :
  path ∉ dom (files s) →
  above ∈ ancestors path → above ∈ dom (files s) →
  ∃ child, makedirs path s = (Raise (NotADirectoryError child), s).
Proof.
  intros Hp Hin Hfile. unfold makedirs. rewrite decide_False by exact Hp.
  destruct (refused _ _ _) as [child|] eqn:E; [eauto|].
  apply refused_None in E. rewrite Forall_forall in E.
  destruct (E above Hin Hfile).
Qed.

Section ExportProperties.

Context {Activity : Type} `{ActivityOps Activity}.

Implicit Types (self : Member Activity) (s : fs).

(** *** Writes to a finite map *)

Lemma write_all_cons (w : string * string) (ws : list (string * string))
    (contents : gmap string string) :
  write_all (w :: ws) contents = write_all ws (<[fst w := snd w]> contents).
Proof. reflexivity. Qed.

Lemma lookup_write_all (ws : list (string * string))
    (contents : gmap string string) (path : string) :
  write_all ws contents !! path
  = match last_write path ws with
    | Some text => Some text
    | None => contents !! path
    end.
Proof.
  revert contents. induction ws as [|w ws IH]; intros contents.
  - reflexivity.
  - rewrite write_all_cons. cbn [last_write].
    rewrite IH. destruct (last_write path ws); [reflexivity|].
    rewrite lookup_insert. destruct (decide (fst w = path)); reflexivity.
Qed.

Lemma write_all_idempotent (ws : list (string * string))
    (contents : gmap string string) :
  write_all ws (write_all ws contents) = write_all ws contents.
Proof.
  apply map_eq. intros path. rewrite !lookup_write_all.
  destruct (last_write path ws); reflexivity.
Qed.

Lemma write_all_app (ws1 ws2 : list (string * string))
    (contents : gmap string string) :
  write_all (ws1 ++ ws2) contents = write_all ws2 (write_all ws1 contents).
Proof. apply foldl_app. Qed.

Lemma dom_write_all (ws : list (string * string))
    (contents : gmap string string) :
  dom (write_all ws contents) = list_to_set (map fst ws) ∪ dom contents.
Proof.
  revert contents. induction ws as [|w ws IH]; intros contents.
  - cbn. set_solver.
  - rewrite write_all_cons, IH.
    rewrite dom_insert_L. cbn. set_solver.
Qed.

(** *** The loop over the years *)

Lemma dump_years_ok (activities_dir base_URI_members uuid : string)
    (years : dict (dict (list json))) (activity_uris : dict json) s :
  Forall (fun y => path_join activities_dir (fst y ++ ".json") ∉ dirs s)
    years →
  dump_years activities_dir base_URI_members uuid years activity_uris s
  = (Ok (foldl (fun uris y =>
                  dict_set (fst y)
                    (JStr (base_URI_members ++ uuid ++ "/" ++ fst y
                             ++ ".json")) uris)
           activity_uris years),
     mk_fs (dirs s)
       (write_all
          (map (fun y => (path_join activities_dir (fst y ++ ".json"),
                          Json.dumps true (year_json (snd y)))) years)
          (files s))).
Proof.
  revert activity_uris s.
  induction years as [|[year by_date] years IH]; intros uris s Hdirs.
  - destruct s. reflexivity.
  - inversion Hdirs as [|? ? Hy Hrest]; subst. cbn [fst snd] in *.
    cbn [dump_years]. unfold mbind, io_bind at 1.
    unfold open_w at 1. destruct (decide _) as [Hin|_]; [contradiction|].
    unfold mbind, io_bind at 1. unfold write at 1. cbn [dirs files].
    rewrite IH by exact Hrest.
    cbn [dirs files map foldl]. rewrite write_all_cons. cbn [fst snd].
    rewrite insert_insert_eq. reflexivity.
Qed.

Lemma dump_years_inv (activities_dir base_URI_members uuid : string)
    (years : dict (dict (list json))) (activity_uris : dict json) s
    (r : dict json) (s' : fs) :
  dump_years activities_dir base_URI_members uuid years activity_uris s
  = (Ok r, s') →
  Forall (fun y => path_join activities_dir (fst y ++ ".json") ∉ dirs s)
    years.
Proof.
  revert activity_uris s.
  induction years as [|[year by_date] years IH]; intros uris s Hrun.
  - constructor.
  - cbn [dump_years] in Hrun. unfold mbind, io_bind at 1 in Hrun.
    unfold open_w at 1 in Hrun.
    destruct (decide _) as [Hin|Hnin]; [discriminate|].
    unfold mbind, io_bind at 1 in Hrun. unfold write at 1 in Hrun.
    apply IH in Hrun. cbn [dirs] in Hrun.
    constructor; [exact Hnin | exact Hrun].
Qed.

(** *** One export *)

Lemma dump_json_ok self (base_path base_URI : string) s (d : datetime) :
  date_of_birth self = Some d →
  exportable self base_path base_URI s →
  dump_json self base_path base_URI s
  = (Ok ((base_URI ++ "members/") ++ uuid self ++ ".json"),
     exported self base_path base_URI d s).
Proof.
  intros Hd (_ & Hmd & Hsum & Had & Hyears).
  unfold dump_json.
  unfold mbind at 1, io_bind at 1.
  fold (members_dir base_path).
  rewrite (makedirs_ok _ _ Hmd).
  unfold mbind at 1, io_bind at 1. unfold open_w at 1. cbn [dirs files].
  fold (summary_path self base_path).
  destruct (decide _) as [Hin|_]; [contradiction|].
  unfold mbind at 1, io_bind at 1.
  fold (activities_dir self base_path).
  rewrite makedirs_ok by exact Had. cbn [dirs files].
  unfold mbind at 1, io_bind at 1.
  rewrite dump_years_ok by exact Hyears.
  unfold mbind at 1, io_bind at 1. unfold io_lift, date_of_birth_isoformat.
  rewrite Hd.
  unfold mbind at 1, io_bind at 1. unfold write at 1. cbn [dirs files].
  unfold mret, io_ret, exported, dump_writes.
  rewrite write_all_app, write_all_cons. reflexivity.
Qed.

Lemma dump_json_inv self (base_path base_URI : string) s (r : string)
    (s' : fs) :
  dump_json self base_path base_URI s = (Ok r, s') →
  exportable self base_path base_URI s.
Proof.
  unfold dump_json, exportable.
  unfold mbind at 1, io_bind at 1.
  fold (members_dir base_path).
  destruct (makedirs (members_dir base_path) s) as [[[]|e] s1] eqn:Hmd;
    [|discriminate].
  pose proof (makedirs_inv _ _ _ _ Hmd) as Hmd'.
  rewrite (makedirs_ok _ _ Hmd') in Hmd. injection Hmd as <-.
  unfold mbind at 1, io_bind at 1. unfold open_w at 1. cbn [dirs files].
  fold (summary_path self base_path).
  destruct (decide _) as [|Hsum]; [discriminate|].
  unfold mbind at 1, io_bind at 1.
  fold (activities_dir self base_path).
  destruct (makedirs (activities_dir self base_path) _) as [[[]|e] s2] eqn:Had;
    [|discriminate].
  pose proof (makedirs_inv _ _ _ _ Had) as Had'.
  rewrite (makedirs_ok _ _ Had') in Had. injection Had as <-.
  cbn [dirs files] in *.
  unfold mbind at 1, io_bind at 1.
  destruct (dump_years _ _ _ _ _ _) as [[uris|e] s3] eqn:Hyears;
    [|discriminate].
  apply dump_years_inv in Hyears. cbn [dirs] in Hyears.
  unfold mbind at 1, io_bind at 1. unfold io_lift, date_of_birth_isoformat.
  destruct (date_of_birth self) as [d|]; [|discriminate].
  intros _. split; [eauto|]. auto.
Qed.

(** An export that returns is the one [exported] describes. *)
Lemma dump_json_returns self (base_path base_URI : string) s (r : string)
    (s' : fs) :
  dump_json self base_path base_URI s = (Ok r, s') →
  ∃ d, date_of_birth self = Some d
       ∧ exportable self base_path base_URI s
       ∧ r = (base_URI ++ "members/") ++ uuid self ++ ".json"
       ∧ s' = exported self base_path base_URI d s.
Proof.
  intros Hrun. pose proof (dump_json_inv _ _ _ _ _ _ Hrun) as Hex.
  destruct Hex as ([d Hd] & Hrest).
  assert (Hex : exportable self base_path base_URI s) by (split; eauto).
  rewrite (dump_json_ok _ _ _ _ d Hd Hex) in Hrun.
  injection Hrun as <- <-. eauto.
Qed.

Lemma exported_dirs self (base_path base_URI : string) (d : datetime) s :
  dirs (exported self base_path base_URI d s)
  = made_dirs (activities_dir self base_path)
      ∪ (made_dirs (members_dir base_path) ∪ dirs s).
Proof. reflexivity. Qed.

Lemma exported_dom self (base_path base_URI : string) (d : datetime) s
    (path : string) :
  path ∈ dom (files (exported self base_path base_URI d s)) ↔
  path = summary_path self base_path
  ∨ (∃ y, y ∈ group_activities base_URI (activities self)
          ∧ path = year_path self base_path (fst y))
  ∨ path ∈ dom (files s).
Proof.
  unfold exported, dump_writes. cbn [files].
  rewrite dom_write_all, elem_of_union, elem_of_list_to_set.
  rewrite map_app, elem_of_app. cbn [map fst].
  rewrite elem_of_cons, list_elem_of_singleton.
  unfold year_writes. rewrite map_map. cbn [fst].
  rewrite elem_of_map.
  split.
  - intros [[[-> | (y & -> & Hy)] | ->] | Hin]; eauto.
  - intros [-> | [(y & Hy & ->) | Hin]]; eauto 6.
Qed.

Lemma exported_exportable self (base_path base_URI : string) (d : datetime)
    s :
  date_of_birth self = Some d →
  exportable self base_path base_URI s →
  exportable self base_path base_URI
    (exported self base_path base_URI d s).
Proof.
  intros Hd (_ & Hmd & Hsum & Had & Hyears).
  rewrite Forall_made_dirs in Hmd, Had.
  rewrite Forall_forall in Hyears.
  assert (Hsum2 : summary_path self base_path
                  ∉ made_dirs (activities_dir self base_path)).
  { intros Hin. apply (Had _ Hin). rewrite dom_insert_L. set_solver. }
  unfold exportable. rewrite Hd, exported_dirs.
  split; [eauto|]. split; [|split; [|split]].
  - apply Forall_made_dirs. intros p Hp.
    rewrite exported_dom. intros [Heq | [(y & Hy & Heq) | Hin]].
    + subst p. set_solver.
    + apply (Hyears y Hy). rewrite <- Heq. set_solver.
    + exact (Hmd p Hp Hin).
  - set_solver.
  - apply Forall_made_dirs. intros p Hp.
    rewrite dom_insert_L, elem_of_union, elem_of_singleton, exported_dom.
    intros [Heq | [Heq | [(y & Hy & Heq) | Hin]]].
    + subst p. contradiction.
    + subst p. contradiction.
    + apply (Hyears y Hy). rewrite <- Heq. set_solver.
    + apply (Had p Hp). rewrite dom_insert_L. set_solver.
  - rewrite Forall_forall. intros y Hy. specialize (Hyears y Hy).
    set_solver.
Qed.

Lemma exported_idempotent self (base_path base_URI : string) (d : datetime)
    s :
  exported self base_path base_URI d (exported self base_path base_URI d s)
  = exported self base_path base_URI d s.
Proof.
  unfold exported at 1. rewrite exported_dirs.
  unfold exported. cbn [files]. rewrite write_all_idempotent.
  f_equal. set_solver.
Qed.

(** C5. A second export of the same member with the same base path and
    base URI, right after a first one that returned, raises nothing,
    returns the same URI and leaves the file system as the first export
    left it: it writes the same texts to the same paths. *)
Theorem dump_json_idempotent self (base_path base_URI : string) s
    (r : string) (s' : fs) :
  dump_json self base_path base_URI s = (Ok r, s') →
  dump_json self base_path base_URI s' = (Ok r, s')
  ∧ ∃ d, date_of_birth self = Some d
         ∧ files s'
           = write_all (dump_writes self base_path base_URI d) (files s)
         ∧ files s'
           = write_all (dump_writes self base_path base_URI d) (files s').
Proof.
  intros Hrun.
  apply dump_json_returns in Hrun as (d & Hd & Hex & -> & ->).
  split.
  - rewrite (dump_json_ok _ _ _ _ d Hd)
      by (apply exported_exportable; assumption).
    rewrite exported_idempotent. reflexivity.
  - exists d. split; [exact Hd|]. split; [reflexivity|].
    unfold exported. cbn [files]. rewrite write_all_idempotent.
    reflexivity.
Qed.

End ExportProperties.

(** ** The grouping of the activities *)

Lemma dict_get_defaultdict_update {V : Type} (dflt : V) (k k' : string)
    (f : V → V) (d : dict V) :
  dict_get k (defaultdict_update dflt k' f d)
  = if decide (k' = k) then Some (f (default dflt (dict_get k d)))
    else dict_get k d.
Proof.
  induction d as [|[k0 v] d IH]; cbn [defaultdict_update dict_get].
  - destruct (decide (k' = k)) as [->|Hne].
    + now rewrite String.eqb_refl.
    + apply String.eqb_neq in Hne. now rewrite Hne.
  - destruct (String.eqb k0 k') eqn:E0; cbn [dict_get].
    + apply String.eqb_eq in E0. subst k0.
      destruct (decide (k' = k)) as [->|Hne].
      * now rewrite String.eqb_refl.
      * apply String.eqb_neq in Hne. now rewrite Hne.
    + destruct (String.eqb k0 k) eqn:E1.
      * apply String.eqb_eq in E1. subst k0. apply String.eqb_neq in E0.
        destruct (decide (k' = k)); [congruence | reflexivity].
      * exact IH.
Qed.

Lemma defaultdict_update_keys {V : Type} (dflt : V) (k : string) (f : V → V)
    (d : dict V) :
  map fst (defaultdict_update dflt k f d)
  = match dict_get k d with
    | Some _ => map fst d
    | None => (map fst d ++ [k])%list
    end.
Proof.
  induction d as [|[k0 v] d IH]; cbn [defaultdict_update dict_get map fst].
  - reflexivity.
  - destruct (String.eqb k0 k); cbn [map fst]; [reflexivity|].
    rewrite IH. destruct (dict_get k d); reflexivity.
Qed.

Lemma dict_get_None_keys {V : Type} (k : string) (d : dict V) :
  dict_get k d = None ↔ k ∉ map fst d.
Proof.
  induction d as [|[k0 v] d IH]; cbn [dict_get map fst].
  - split; [intros _ Hin; inversion Hin | reflexivity].
  - rewrite not_elem_of_cons.
    destruct (String.eqb k0 k) eqn:E.
    + apply String.eqb_eq in E. split; [discriminate | intros [Hne _]].
      congruence.
    + apply String.eqb_neq in E. rewrite IH. split; [|tauto].
      intros Hnin. split; [congruence | exact Hnin].
Qed.

Lemma defaultdict_update_NoDup {V : Type} (dflt : V) (k : string) (f : V → V)
    (d : dict V) :
  NoDup (map fst d) → NoDup (map fst (defaultdict_update dflt k f d)).
Proof.
  intros Hnd. rewrite defaultdict_update_keys.
  destruct (dict_get k d) eqn:E; [exact Hnd|].
  apply dict_get_None_keys in E.
  apply NoDup_app. split; [exact Hnd|]. split.
  - intros x Hx Hk. apply list_elem_of_singleton in Hk. congruence.
  - apply NoDup_singleton.
Qed.

Section Grouping.

Context {Activity : Type} `{ActivityOps Activity}.

Lemma dict_get2_group_step (base_URI y t : string)
    (acc : dict (dict (list json))) (a : Activity) :
  dict_get2 y t (group_step base_URI acc a)
  = if decide (str_of_int (year (Activity_date a)) = y
               ∧ isoformat (Activity_date a) = t)
    then Some (default [] (dict_get2 y t acc) ++ [Activity_dict a base_URI])%list
    else dict_get2 y t acc.
Proof.
  unfold dict_get2, group_step.
  rewrite dict_get_defaultdict_update.
  destruct (decide (str_of_int (year (Activity_date a)) = y)) as [Hy|Hy].
  - cbn [mbind option_bind]. rewrite dict_get_defaultdict_update.
    destruct (decide (isoformat (Activity_date a) = t)) as [Ht|Ht].
    + rewrite decide_True by auto.
      destruct (dict_get y acc); reflexivity.
    + rewrite decide_False by tauto.
      destruct (dict_get y acc); reflexivity.
  - rewrite decide_False by tauto. reflexivity.
Qed.

Lemma bucket_cons (base_URI y t : string) (a : Activity)
    (acts : list Activity) :
  bucket base_URI y t (a :: acts)
  = if decide (str_of_int (year (Activity_date a)) = y
               ∧ isoformat (Activity_date a) = t)
    then Activity_dict a base_URI :: bucket base_URI y t acts
    else bucket base_URI y t acts.
Proof.
  unfold bucket. rewrite filter_cons.
  destruct (decide _); reflexivity.
Qed.

Lemma dict_get2_foldl (base_URI y t : string)
    (acc : dict (dict (list json))) (acts : list Activity) :
  dict_get2 y t (foldl (group_step base_URI) acc acts)
  = bucket_extend (dict_get2 y t acc) (bucket base_URI y t acts).
Proof.
  revert acc. induction acts as [|a acts IH]; intros acc.
  - reflexivity.
  - cbn [foldl]. rewrite IH, dict_get2_group_step, bucket_cons.
    destruct (decide _) as [_|_]; [|reflexivity].
    destruct (bucket base_URI y t acts) as [|b bs]; cbn [bucket_extend].
    + reflexivity.
    + cbn [default from_option id]. now rewrite <- app_assoc.
Qed.

Lemma group_activities_NoDup (base_URI : string) (acts : list Activity) :
  NoDup (map fst (group_activities base_URI acts)).
Proof.
  unfold group_activities.
  assert (Hinit : NoDup (map fst (@nil (string * dict (list json)))))
    by constructor.
  revert Hinit. generalize (@nil (string * dict (list json))).
  induction acts as [|a acts IH]; intros acc Hacc; [exact Hacc|].
  cbn [foldl]. apply IH. now apply defaultdict_update_NoDup.
Qed.

End Grouping.

Section Partitioning.

Context {Activity : Type} `{ActivityOps Activity}.


End Partitioning.

(** ** The export of Jan Kowalski, with an activity in 2021 and one in 2022 *)

Lemma jan_exportable : exportable jan_active "out" "/" fs_empty.
Proof. unfold exportable. apply (bool_decide_unpack _). vm_compute. exact I. Qed.

Lemma jan_dump_json :
  dump_json jan_active "out" "/" fs_empty
  = (Ok "/members/e46f4a3245.json", jan_exported).
Proof. vm_compute. reflexivity. Qed.

Lemma dump_json_idempotent_witness :
  dump_json jan_active "out" "/" jan_exported
  = (Ok "/members/e46f4a3245.json", jan_exported)
  ∧ ∃ d, date_of_birth jan_active = Some d
         ∧ files jan_exported
           = write_all (dump_writes jan_active "out" "/" d) (files fs_empty)
         ∧ files jan_exported
           = write_all (dump_writes jan_active "out" "/" d)
               (files jan_exported).
Proof.
  apply (dump_json_idempotent jan_active "out" "/" fs_empty).
  vm_compute. reflexivity.
Defined.

Example jan_files :
  map_to_list (files jan_exported)
  ≡ₚ [("out/members/e46f4a3245.json",
       "{" ++ Json.dquote ++ "id" ++ Json.dquote ++ ": "
         ++ Json.dquote ++ "e46f4a3245" ++ Json.dquote ++ ", "
         ++ Json.dquote ++ "first_name" ++ Json.dquote ++ ": "
         ++ Json.dquote ++ "Jan" ++ Json.dquote ++ ", "
         ++ Json.dquote ++ "last_name" ++ Json.dquote ++ ": "
         ++ Json.dquote ++ "Kowalski" ++ Json.dquote ++ ", "
         ++ Json.dquote ++ "gender" ++ Json.dquote ++ ": "
         ++ Json.dquote ++ "M" ++ Json.dquote ++ ", "
         ++ Json.dquote ++ "date_of_birth" ++ Json.dquote ++ ": "
         ++ Json.dquote ++ "1970-02-03T00:00:00" ++ Json.dquote ++ ", "
         ++ Json.dquote ++ "language" ++ Json.dquote ++ ": "
         ++ Json.dquote ++ "nl" ++ Json.dquote ++ ", "
         ++ Json.dquote ++ "province" ++ Json.dquote ++ ": "
         ++ Json.dquote ++ "Antwerpen" ++ Json.dquote ++ ", "
         ++ Json.dquote ++ "party" ++ Json.dquote ++ ": "
         ++ Json.dquote ++ "N-VA" ++ Json.dquote ++ ", "
         ++ Json.dquote ++ "wiki" ++ Json.dquote ++ ": "
         ++ Json.dquote ++ "https://nl.wikipedia.org/wiki/Jan_Kowalski"
         ++ Json.dquote ++ ", "
         ++ Json.dquote ++ "replaces" ++ Json.dquote ++ ": [], "
         ++ Json.dquote ++ "activities" ++ Json.dquote ++ ": {"
         ++ Json.dquote ++ "2021" ++ Json.dquote ++ ": "
         ++ Json.dquote ++ "/members/e46f4a3245/2021.json" ++ Json.dquote
         ++ ", "
         ++ Json.dquote ++ "2022" ++ Json.dquote ++ ": "
         ++ Json.dquote ++ "/members/e46f4a3245/2022.json" ++ Json.dquote
         ++ "}, "
         ++ Json.dquote ++ "photo_url" ++ Json.dquote ++ ": null}");
      ("out/members/e46f4a3245/2021.json",
       "{" ++ Json.dquote ++ "2021-01-01T10:00:00" ++ Json.dquote ++ ": [{"
         ++ Json.dquote ++ "title" ++ Json.dquote ++ ": "
         ++ Json.dquote ++ "Question" ++ Json.dquote ++ ", "
         ++ Json.dquote ++ "date" ++ Json.dquote ++ ": "
         ++ Json.dquote ++ "2021-01-01T10:00:00" ++ Json.dquote ++ "}]}");
      ("out/members/e46f4a3245/2022.json",
       "{" ++ Json.dquote ++ "2022-03-03T09:00:00" ++ Json.dquote ++ ": [{"
         ++ Json.dquote ++ "title" ++ Json.dquote ++ ": "
         ++ Json.dquote ++ "Vote" ++ Json.dquote ++ ", "
         ++ Json.dquote ++ "date" ++ Json.dquote ++ ": "
         ++ Json.dquote ++ "2022-03-03T09:00:00" ++ Json.dquote ++ "}]}")].
Proof. apply (bool_decide_unpack _). vm_compute. exact I. Qed.

(** The identifier of Jan Kowalski, of Antwerpen, before and after his
    activities were posted. *)
Lemma uuid_truncated_sha1_witness :
  uuid jan_kowalski
  = str_take 10 (Sha1.hexdigest (encode_utf8 "JanKowalskiAntwerpen"))
  ∧ String.length (uuid jan_kowalski) = 10%nat
  ∧ uuid jan_kowalski = uuid jan_active.
Proof.
  assert (H1 : constructed IsoParse.parse jan_kowalski)
    by (unfold jan_kowalski; apply constructed_init).
  assert (H2 : constructed IsoParse.parse jan_active)
    by (unfold jan_active; do 2 apply constructed_post_activity; exact H1).
  destruct (uuid_truncated_sha1 IsoParse.parse jan_kowalski jan_active H1 H2)
    as [(_ & Hdigest & Hlength & _) Hsame].
  split; [exact Hdigest|]. split; [exact Hlength|].
  apply Hsame; vm_compute; reflexivity.
Defined.

Example uuid_jan_kowalski : uuid jan_kowalski = "e46f4a3245".
Proof. vm_compute. reflexivity. Qed.

(** ** Reading the summary again *)

Section RoundTrip.

Context {Activity : Type} `{ActivityOps Activity}.
Variable dateparser_parse : string → option datetime.
Variable json_loads : string → option json.

Implicit Types (self : Member Activity) (s : fs).

Lemma last_write_snoc (path text : string) (ws : list (string * string)) :
  last_write path (ws ++ [(path, text)]) = Some text.
Proof.
  induction ws as [|w ws IH]; cbn [app last_write].
  - cbn. now rewrite decide_True.
  - now rewrite IH.
Qed.

Lemma exported_summary self (base_path base_URI : string) (d : datetime) s :
  files (exported self base_path base_URI d s) !! summary_path self base_path
  = Some (summary_text self base_URI d).
Proof.
  unfold exported, dump_writes. cbn [files].
  rewrite lookup_write_all, last_write_snoc. reflexivity.
Qed.

(** The static record the summary of a member is. *)
Lemma json_entry_of_summary self (base_URI : string) (d : datetime) :
  json_entry_of (summary_doc self base_URI d)
  = Some {| je_first_name := Some (first_name self);
            je_last_name := Some (last_name self);
            je_party := Some (party self);
            je_province := Some (province self);
            je_language := Some (language self);
            je_wiki := Some (url self);
            je_alternative_names := None;
            je_gender := Some (gender self);
            je_date_of_birth := Some (isoformat d);
            je_photo_url := Some (photo_url self) |}.
Proof.
  unfold summary_doc, summary_json, json_entry_of.
  destruct (url self), (photo_url self); reflexivity.
Qed.

(** The identifier and the names come back, whatever the reader of
    dates. *)
Lemma summary_round_trip self (base_path base_URI : string) s (r : string)
    (s' : fs) (d : datetime) :
  constructed dateparser_parse self →
  dump_json self base_path base_URI s = (Ok r, s') →
  date_of_birth self = Some d →
  json_loads (summary_text self base_URI d)
  = Some (summary_doc self base_URI d) →
  ∃ entry,
    read_summary json_loads self base_path s' = Some entry
    ∧ from_json dateparser_parse entry
      = Ok (Member_init (Activity := Activity) (first_name self)
              (last_name self) (party self) (province self) (language self)
              (url self) None (gender self)
              (dateparser_parse (isoformat d)) (photo_url self)).
Proof.
  intros Hc Hrun Hd Hloads.
  apply dump_json_returns in Hrun as (d' & Hd' & _ & _ & ->).
  assert (d' = d) as -> by congruence.
  eexists. split.
  - unfold read_summary. rewrite exported_summary. cbn [mbind option_bind].
    rewrite Hloads. cbn [mbind option_bind].
    apply json_entry_of_summary.
  - reflexivity.
Qed.

End RoundTrip.

Example jan_read_again :
  read_summary JsonLoad.loads jan_active "out" jan_exported
  = Some {| je_first_name := Some "Jan";
            je_last_name := Some "Kowalski";
            je_party := Some "N-VA";
            je_province := Some "Antwerpen";
            je_language := Some "nl";
            je_wiki := Some (Some "https://nl.wikipedia.org/wiki/Jan_Kowalski");
            je_alternative_names := None;
            je_gender := Some "M";
            je_date_of_birth := Some "1970-02-03T00:00:00";
            je_photo_url := Some None |}.
Proof. vm_compute. reflexivity. Qed.

(** ** An export into an empty tree raises nothing *)

Lemma starts_relative_prefix (x : string) :
  starts_relative x → String.prefix "/" x = false.
Proof.
  intros (c & rest & -> & Hc). cbn [String.prefix].
  destruct (ascii_dec "/" c) as [E|_]; [congruence | reflexivity].
Qed.

Lemma starts_relative_app (x suffix : string) :
  starts_relative x → starts_relative (x ++ suffix).
Proof.
  intros (c & rest & -> & Hc). exists c, (rest ++ suffix).
  split; [reflexivity | exact Hc].
Qed.

Lemma pretty_N_go_relative (x : N) (s : string) :
  starts_relative s → starts_relative (pretty_N_go x s).
Proof.
  revert s. induction (N.lt_wf_0 x) as [x _ IH]. intros s Hs.
  destruct (decide (x = 0)%N) as [->|Hx].
  - now rewrite pretty_N_go_0.
  - rewrite pretty_N_go_step by lia. apply IH.
    + apply N.div_lt; lia.
    + eexists _, _. split; [reflexivity|].
      unfold pretty_N_char. repeat case_match; discriminate.
Qed.

Lemma pretty_N_relative (x : N) : starts_relative (pretty x).
Proof.
  unfold pretty, pretty_N. destruct (decide (x = 0)%N) as [->|Hx].
  - eexists _, _. split; [reflexivity | discriminate].
  - rewrite pretty_N_go_step by lia. apply pretty_N_go_relative.
    eexists _, _. split; [reflexivity|].
    unfold pretty_N_char. repeat case_match; discriminate.
Qed.

Lemma str_of_int_relative (n : Z) : starts_relative (str_of_int n).
Proof.
  unfold str_of_int, pretty, pretty_Z. destruct n as [|p|p].
  - eexists _, _. split; [reflexivity | discriminate].
  - apply pretty_N_relative.
  - eexists _, _. split; [reflexivity | discriminate].
Qed.

Lemma list_ascii_app (s1 s2 : string) :
  list_ascii_of_string (s1 ++ s2)
  = (list_ascii_of_string s1 ++ list_ascii_of_string s2)%list.
Proof.
  induction s1 as [|c s1 IH]; [reflexivity|].
  change (c :: list_ascii_of_string (s1 ++ s2)
          = c :: (list_ascii_of_string s1 ++ list_ascii_of_string s2)%list).
  now rewrite IH.
Qed.

Lemma ends_with_sep_app (s1 s2 : string) :
  s2 ≠ EmptyString → ends_with_sep (s1 ++ s2) = ends_with_sep s2.
Proof.
  intros Hne. unfold ends_with_sep. rewrite list_ascii_app.
  destruct s2 as [|c s2]; [congruence|].
  cbn [list_ascii_of_string].
  now rewrite last_app_cons.
Qed.

Lemma path_join_relative (a b : string) :
  a ≠ EmptyString → ends_with_sep a = false → String.prefix "/" b = false →
  path_join a b = a ++ "/" ++ b.
Proof.
  intros Ha Hsep Hb. unfold path_join. rewrite Hb, Hsep.
  destruct a; [congruence | reflexivity].
Qed.

Lemma members_dir_shape (base_path : string) :
  members_dir base_path ≠ EmptyString
  ∧ ends_with_sep (members_dir base_path) = false.
Proof.
  unfold members_dir, path_join.
  change (String.prefix "/" "members") with false. cbv iota.
  assert (Hany : ∀ p, p ++ "members" ≠ EmptyString
                      ∧ ends_with_sep (p ++ "members") = false).
  { intros p. split.
    - intros E. apply (f_equal String.length) in E.
      rewrite str_length_app in E. cbn in E. lia.
    - now rewrite ends_with_sep_app. }
  destruct (String.eqb base_path EmptyString || ends_with_sep base_path).
  - apply Hany.
  - rewrite <- (str_app_assoc base_path "/" "members"). apply Hany.
Qed.

Lemma lower_hex_not_sep (c : ascii) : is_lower_hex c = true → c ≠ "/"%char.
Proof. intros Hc ->. discriminate. Qed.

Lemma str_forallb_last (p : ascii → bool) (s : string) (c : ascii) :
  str_forallb p s = true → last (list_ascii_of_string s) = Some c →
  p c = true.
Proof.
  induction s as [|c0 s IH]; [discriminate|].
  cbn [str_forallb list_ascii_of_string].
  intros [Hc0 Hs]%andb_prop. destruct s as [|c1 s].
  - cbn. intros [= <-]. exact Hc0.
  - intros Hlast. apply IH; [exact Hs|]. exact Hlast.
Qed.

Lemma path_join_prefix (a b : string) :
  String.prefix "/" b = false → path_join a b = base_prefix a ++ b.
Proof.
  intros Hb. unfold path_join, base_prefix. rewrite Hb.
  destruct (String.eqb a EmptyString || ends_with_sep a); [reflexivity|].
  now rewrite str_app_assoc.
Qed.

Section FreshTree.

Context {Activity : Type} `{ActivityOps Activity}.
Variable dateparser_parse : string → option datetime.

Implicit Types (self : Member Activity).


Lemma uuid_shape self :
  constructed dateparser_parse self →
  starts_relative (uuid self)
  ∧ uuid self ≠ EmptyString
  ∧ ends_with_sep (uuid self) = false
  ∧ String.length (uuid self) = 10%nat.
Proof.
  intros Hc.
  assert (Hlen : String.length (uuid self) = 10%nat).
  { rewrite (constructed_uuid _ _ Hc). apply str_take_length.
    unfold identity_digest. rewrite hexdigest_length. lia. }
  assert (Hhex : str_forallb is_lower_hex (uuid self) = true).
  { rewrite (constructed_uuid _ _ Hc).
    apply str_take_forallb, hexdigest_lower_hex. }
  destruct (uuid self) as [|c rest] eqn:E; [discriminate|].
  repeat split.
  - exists c, rest. split; [reflexivity|].
    apply lower_hex_not_sep. cbn in Hhex. now apply andb_prop in Hhex.
  - discriminate.
  - unfold ends_with_sep.
    destruct (last (list_ascii_of_string (String c rest))) as [l|] eqn:El;
      [|reflexivity].
    pose proof (str_forallb_last _ _ _ Hhex El) as Hl.
    apply lower_hex_not_sep in Hl. now apply Ascii.eqb_neq.
  - exact Hlen.
Qed.

Lemma members_dir_prefix (base_path : string) :
  members_dir base_path = base_prefix base_path ++ "members".
Proof. unfold members_dir. now apply path_join_prefix. Qed.

Lemma constructed_paths self (base_path : string) :
  constructed dateparser_parse self →
  summary_path self base_path = base_prefix base_path ++ uri self
  ∧ (∀ y, starts_relative y →
          year_path self base_path y
          = base_prefix base_path ++ year_relative self y).
Proof.
  intros Hc.
  destruct (uuid_shape self Hc) as (Hrel & Hne & Hsep & _).
  destruct (members_dir_shape base_path) as [Hmd Hmdsep].
  split.
  - unfold summary_path.
    rewrite path_join_relative; auto;
      [|now apply starts_relative_prefix, starts_relative_app].
    rewrite members_dir_prefix, str_app_assoc. reflexivity.
  - intros y Hy. unfold year_path, activities_dir.
    rewrite (path_join_relative (members_dir base_path)); auto;
      [|now apply starts_relative_prefix].
    rewrite path_join_relative.
    + rewrite members_dir_prefix, !str_app_assoc. reflexivity.
    + intros E. apply (f_equal String.length) in E.
      rewrite !str_length_app in E. cbn in E. lia.
    + rewrite <- str_app_assoc, ends_with_sep_app by exact Hne. exact Hsep.
    + now apply starts_relative_prefix, starts_relative_app.
Qed.



End FreshTree.



Example jan_uri :
  fst (dump_json jan_active "out" "/" fs_empty)
  = Ok "/members/e46f4a3245.json".
Proof. vm_compute. reflexivity. Qed.

(** ** The files of two years *)

Section TwoYears.

Context {Activity : Type} `{ActivityOps Activity}.
Variable dateparser_parse : string → option datetime.


End TwoYears.


(** ** The date of birth is read again from its ISO-8601 text *)










Section ReadAgain.

Context {Activity : Type} `{ActivityOps Activity}.
Variable other_formats : string → option datetime.
Variable json_loads : string → option json.

Implicit Types (self : Member Activity) (s : fs).


End ReadAgain.


Example dateparser_parse_iso :
  Dateparser.parse (fun _ => None) "1970-02-03T00:00:00"
  = Some (mk_datetime 1970 2 3 0 0 0 0)
  ∧ Dateparser.parse (fun _ => None) "2021-01-01T10:00:00.000250"
    = Some (mk_datetime 2021 1 1 10 0 0 250)
  ∧ Dateparser.parse (fun _ => Some (mk_datetime 1970 2 3 0 0 0 0))
      "3 februari 1970"
    = Some (mk_datetime 1970 2 3 0 0 0 0)
  ∧ Dateparser.parse (fun _ => None) "1970-02-30T00:00:00" = None
  ∧ isoformat (mk_datetime 987 6 5 4 3 2 1) = "0987-06-05T04:03:02.000001".
Proof. vm_compute. repeat split. Qed.

(** ** The export where something stands in its way *)

(** A file of the name [out/members] makes [makedirs] raise, and nothing
    is written. *)
Example dump_json_members_is_file :
  dump_json jan_active "out" "/"
    (mk_fs ∅ {["out/members" := "not a directory"]})
  = (Raise (FileExistsError "out/members"),
     mk_fs ∅ {["out/members" := "not a directory"]}).
Proof. vm_compute. reflexivity. Qed.

(** Without a date of birth the export raises when the summary is put
    together: the files of the years are written by then and the summary
    file is empty. *)
Example dump_json_no_date_of_birth :
  date_of_birth jan_undated = None
  ∧ fst (dump_json jan_undated "out" "/" fs_empty)
    = Raise (AttributeError "isoformat")
  ∧ files (snd (dump_json jan_undated "out" "/" fs_empty))
      !! "out/members/e46f4a3245.json" = Some EmptyString
  ∧ is_Some (files (snd (dump_json jan_undated "out" "/" fs_empty))
               !! "out/members/e46f4a3245/2021.json").
Proof.
  split; [reflexivity|]. split; [vm_compute; reflexivity|].
  split; [vm_compute; reflexivity|].
  apply (bool_decide_unpack _). vm_compute. exact I.
Qed.

(** An alternative name matches where the names of the member do not. *)
Example has_name_alternative :
  has_name Normalize.normalize_str jan_kowalski "J. KOWALSKI" = true
  ∧ has_name Normalize.normalize_str
      (Member_init (Activity := titled_activity) "Jan" "Kowalski" "N-VA"
         "Antwerpen" "nl" None None "M" None None)
      "J. KOWALSKI" = false.
Proof. vm_compute. auto. Qed.

(** * Further properties of [member.py] *)

(** ** [has_name] *)

Section NameMatchingMore.

Context {Activity : Type}.
Variable normalize_str : string → string.

Implicit Types (self : Member Activity).

Lemma truthy_alternative_match self (query : string) :
  truthy (alternative_names self)
    && alternative_match normalize_str query
         (default [] (alternative_names self)) = true
  ↔ ∃ names n, alternative_names self = Some names ∧ n ∈ names
               ∧ query = normalize_str n.
Proof.
  destruct (alternative_names self) as [[|n0 names]|]; cbn [truthy default].
  - split; [discriminate|]. intros (l & n & [= <-] & Hn & _). inversion Hn.
  - rewrite andb_true_l, alternative_match_elem. split.
    + intros (n & Hn & Hq). eauto.
    + intros (l & n & [= <-] & Hn & Hq). eauto.
  - split; [discriminate|]. intros (l & n & [=] & _).
Qed.

(** X1. [has_name] answers [True] exactly when the normalised query is the
    normalised form of an alternative name, of the last name, of the last
    name followed by the first, or of the first name followed by the
    last. *)
Theorem has_name_exactly self (query : string) :
  has_name normalize_str self query = true
  ↔ (∃ names n, alternative_names self = Some names ∧ n ∈ names
                ∧ normalize_str query = normalize_str n)
    ∨ normalize_str query = normalize_str (last_name self)
    ∨ normalize_str query
      = normalize_str (last_name self ++ " " ++ first_name self)
    ∨ normalize_str query
      = normalize_str (first_name self ++ " " ++ last_name self).
Proof.
  rewrite has_name_unfold, !orb_true_iff, truthy_alternative_match.
  rewrite !String.eqb_eq. tauto.
Qed.

(** X2. A member matches its last name, its two names in either order and
    each of its alternative names, whatever the normalisation. *)
Theorem has_name_own_names self :
  has_name normalize_str self (last_name self) = true
  ∧ has_name normalize_str self (last_name self ++ " " ++ first_name self)
    = true
  ∧ has_name normalize_str self (first_name self ++ " " ++ last_name self)
    = true
  ∧ ∀ names n, alternative_names self = Some names → n ∈ names →
               has_name normalize_str self n = true.
Proof.
  repeat split.
  - rewrite has_name_unfold, String.eqb_refl.
    now rewrite orb_true_r.
  - rewrite has_name_unfold, (String.eqb_refl (normalize_str (_ ++ _))).
    now rewrite orb_true_r.
  - rewrite has_name_unfold, String.eqb_refl. now rewrite orb_true_r.
  - intros names n Hnames Hn. rewrite has_name_unfold.
    assert (Halt : truthy (alternative_names self)
                   && alternative_match normalize_str (normalize_str n)
                        (default [] (alternative_names self)) = true)
      by (apply truthy_alternative_match; eauto).
    now rewrite Halt.
Qed.

End NameMatchingMore.

Lemma has_name_own_names_witness :
  has_name Normalize.normalize_str jan_kowalski "Kowalski Jan" = true
  ∧ has_name Normalize.normalize_str jan_kowalski "J. Kowalski" = true.
Proof.
  destruct (has_name_own_names Normalize.normalize_str jan_kowalski)
    as (_ & Hlast_first & _ & Halt).
  split; [exact Hlast_first|].
  apply (Halt ["J. Kowalski"]); [reflexivity | left].
Defined.

(** ** [from_json] *)

Section FromJsonMore.

Context {Activity : Type}.
Variable dateparser_parse : string → option datetime.

(** X3. [from_json] raises [KeyError] for the first key it reads that the
    record lacks, [date_of_birth] before the others; on a record with all
    the keys it reads it calls the constructor, with what [dateparser.parse]
    makes of the date of birth and [None] for an optional key that is
    missing, so that the member has neither activities nor replacements. *)
Theorem from_json_first_missing (json_entry : json_entry) :
  match first_missing json_entry with
  | Some key =>
      from_json (Activity := Activity) dateparser_parse json_entry
      = Raise (KeyError key)
  | None =>
      ∃ self : Member Activity,
        from_json dateparser_parse json_entry = Ok self
        ∧ je_first_name json_entry = Some (first_name self)
        ∧ je_last_name json_entry = Some (last_name self)
        ∧ je_party json_entry = Some (party self)
        ∧ je_province json_entry = Some (province self)
        ∧ je_language json_entry = Some (language self)
        ∧ je_wiki json_entry = Some (url self)
        ∧ je_gender json_entry = Some (gender self)
        ∧ dateparser_parse <$> je_date_of_birth json_entry
          = Some (date_of_birth self)
        ∧ alternative_names self = get (je_alternative_names json_entry)
        ∧ photo_url self = get (je_photo_url json_entry)
        ∧ activities self = []
        ∧ replaces self = []
        ∧ uuid self = str_take 10 (identity_digest self)
  end.
Proof.
  destruct json_entry as [f l p pr la w an g d ph].
  destruct d as [d|]; [|reflexivity].
  destruct f as [f|]; [|reflexivity].
  destruct l as [l|]; [|reflexivity].
  destruct p as [p|]; [|reflexivity].
  destruct pr as [pr|]; [|reflexivity].
  destruct la as [la|]; [|reflexivity].
  destruct w as [w|]; [|reflexivity].
  destruct g as [g|]; [|reflexivity].
  cbn. eexists. split; [reflexivity|]. repeat split.
Qed.

End FromJsonMore.

(** ** [post_activity] and [set_replaces] *)

Section Mutators.

Context {Activity : Type}.
Variable normalize_str : string → string.

Implicit Types (self : Member Activity).

(** X4. Activities posted one after the other are at the end of
    [activities] in the order in which they were posted, after those that
    were there; the identifier, the other fields and the answers of
    [has_name] stay as they were. *)
Theorem post_activity_sequence self (posted : list Activity) :
  activities (foldl post_activity self posted)
  = (activities self ++ posted)%list
  ∧ uuid (foldl post_activity self posted) = uuid self
  ∧ first_name (foldl post_activity self posted) = first_name self
  ∧ last_name (foldl post_activity self posted) = last_name self
  ∧ province (foldl post_activity self posted) = province self
  ∧ date_of_birth (foldl post_activity self posted) = date_of_birth self
  ∧ replaces (foldl post_activity self posted) = replaces self
  ∧ alternative_names (foldl post_activity self posted)
    = alternative_names self
  ∧ ∀ query, has_name normalize_str (foldl post_activity self posted) query
             = has_name normalize_str self query.
Proof.
  revert self. induction posted as [|a posted IH]; intros self.
  - cbn [foldl]. rewrite app_nil_r. repeat split.
  - cbn [foldl].
    destruct (IH (post_activity self a))
      as (Hacts & Hu & Hf & Hl & Hp & Hd & Hr & Han & Hq).
    cbn [post_activity activities uuid first_name last_name province
         date_of_birth replaces alternative_names] in *.
    rewrite <- app_assoc in Hacts. repeat split; assumption.
Qed.

End Mutators.

(** ** The grouping of [dump_json] *)

Lemma defaultdict_update_sum {V : Type} (size : V → nat) (dflt : V)
    (k : string) (f : V → V) (d : dict V) :
  size dflt = 0%nat →
  (∀ v, size (f v) = S (size v)) →
  sum_list_with (fun kv => size (snd kv)) (defaultdict_update dflt k f d)
  = S (sum_list_with (fun kv => size (snd kv)) d).
Proof.
  intros Hdflt Hf.
  induction d as [|[k0 v] d IH]; cbn [defaultdict_update sum_list_with snd].
  - rewrite Hf, Hdflt. reflexivity.
  - destruct (String.eqb k0 k); cbn [sum_list_with snd].
    + rewrite Hf. reflexivity.
    + rewrite IH. lia.
Qed.

Section GroupingMore.

Context {Activity : Type} `{ActivityOps Activity}.

Lemma group_step_keys (base_URI : string) (acc : dict (dict (list json)))
    (a : Activity) (y : string) :
  y ∈ map fst (group_step base_URI acc a)
  ↔ y ∈ map fst acc ∨ y = year_key a.
Proof.
  unfold group_step. rewrite defaultdict_update_keys. fold (year_key a).
  destruct (dict_get (year_key a) acc) eqn:E.
  - split; [now left|]. intros [Hy | ->]; [exact Hy|].
    destruct (decide (year_key a ∈ map fst acc)) as [Hin|Hnin];
      [exact Hin|].
    apply dict_get_None_keys in Hnin. congruence.
  - rewrite elem_of_app, list_elem_of_singleton. reflexivity.
Qed.

Lemma group_foldl_keys (base_URI : string) (acts : list Activity)
    (acc : dict (dict (list json))) (y : string) :
  y ∈ map fst (foldl (group_step base_URI) acc acts)
  ↔ y ∈ map fst acc ∨ ∃ a, a ∈ acts ∧ year_key a = y.
Proof.
  revert acc. induction acts as [|a acts IH]; intros acc; cbn [foldl].
  - split; [now left|]. intros [Hy | (a & Ha & _)]; [exact Hy|].
    inversion Ha.
  - rewrite IH, group_step_keys. split.
    + intros [[Hy | ->] | (a' & Ha' & Hy)].
      * now left.
      * right. exists a. split; [left | reflexivity].
      * right. exists a'. split; [now right | exact Hy].
    + intros [Hy | (a' & Ha' & Hy)]; [now left; left|].
      apply elem_of_cons in Ha' as [-> | Ha'].
      * left. right. now symmetry.
      * right. eauto.
Qed.

Lemma group_step_count (base_URI : string) (acc : dict (dict (list json)))
    (a : Activity) :
  bucket_count (group_step base_URI acc a) = S (bucket_count acc).
Proof.
  unfold bucket_count, group_step.
  apply (defaultdict_update_sum
           (fun by_date => sum_list_with (fun t => length (snd t)) by_date)).
  - reflexivity.
  - intros by_date.
    apply (defaultdict_update_sum (fun bucket : list json => length bucket)).
    + reflexivity.
    + intros bucket. rewrite length_app. cbn. lia.
Qed.

(** X5. The years of the grouping are the years of the activities, each
    once, and the buckets hold as many entries as there are activities: no
    activity is left out and none is entered twice. *)
Theorem group_activities_complete (base_URI : string)
    (acts : list Activity) :
  (∀ y, y ∈ map fst (group_activities base_URI acts)
        ↔ ∃ a, a ∈ acts ∧ str_of_int (year (Activity_date a)) = y)
  ∧ NoDup (map fst (group_activities base_URI acts))
  ∧ bucket_count (group_activities base_URI acts) = length acts.
Proof.
  split; [|split].
  - intros y. unfold group_activities. rewrite group_foldl_keys.
    split; [|now right]. intros [Hy | Hy]; [inversion Hy | exact Hy].
  - apply group_activities_NoDup.
  - unfold group_activities.
    assert (Hgen : ∀ acc,
              bucket_count (foldl (group_step base_URI) acc acts)
              = (bucket_count acc + length acts)%nat).
    { induction acts as [|a acts IH]; intros acc; cbn [foldl length].
      - lia.
      - rewrite IH, group_step_count. lia. }
    rewrite Hgen. reflexivity.
Qed.

End GroupingMore.

(** ** [dump_json]: what stands in its way *)

Section ExportErrors.

Context {Activity : Type} `{ActivityOps Activity}.

Implicit Types (self : Member Activity) (s : fs).

Lemma exportable_unobstructed self (base_path base_URI : string) s :
  exportable self base_path base_URI s
  ↔ is_Some (date_of_birth self) ∧ unobstructed self base_path base_URI s.
Proof. reflexivity. Qed.

(** X6. A file where the directory [members] is to be made makes the
    export raise [FileExistsError] with the file system untouched; a
    directory where the summary is to be written makes it raise
    [IsADirectoryError] with no file written; a file where the directory of
    the member is to be made makes it raise [FileExistsError] with the
    summary file left empty.  In the last two cases [members] has been
    made, with the directories above it, none of which is a regular
    file. *)
Theorem dump_json_obstructed self (base_path base_URI : string) s :
  (members_dir base_path ∈ dom (files s) →
   dump_json self base_path base_URI s
   = (Raise (FileExistsError (members_dir base_path)), s))
  ∧ (members_dir base_path ∉ dom (files s) →
     Forall (fun p => p ∉ dom (files s))
       (ancestors (members_dir base_path)) →
     summary_path self base_path
       ∈ made_dirs (members_dir base_path) ∪ dirs s →
     dump_json self base_path base_URI s
     = (Raise (IsADirectoryError (summary_path self base_path)),
        mk_fs (made_dirs (members_dir base_path) ∪ dirs s) (files s)))
  ∧ (members_dir base_path ∉ dom (files s) →
     Forall (fun p => p ∉ dom (files s))
       (ancestors (members_dir base_path)) →
     summary_path self base_path
       ∉ made_dirs (members_dir base_path) ∪ dirs s →
     activities_dir self base_path
       ∈ dom (<[summary_path self base_path := EmptyString]> (files s)) →
     dump_json self base_path base_URI s
     = (Raise (FileExistsError (activities_dir self base_path)),
        mk_fs (made_dirs (members_dir base_path) ∪ dirs s)
          (<[summary_path self base_path := EmptyString]> (files s)))).
Proof.
  split; [|split].
  - intros Hmd. unfold dump_json.
    unfold mbind at 1, io_bind at 1. unfold makedirs at 1.
    fold (members_dir base_path).
    destruct (decide _) as [_|Hnin]; [reflexivity | contradiction].
  - intros Hmd Habove Hsum. unfold dump_json.
    unfold mbind at 1, io_bind at 1.
    fold (members_dir base_path).
    rewrite makedirs_ok by (constructor; assumption).
    unfold mbind at 1, io_bind at 1. unfold open_w at 1. cbn [dirs files].
    fold (summary_path self base_path).
    destruct (decide _) as [_|Hnin]; [reflexivity | contradiction].
  - intros Hmd Habove Hsum Had. unfold dump_json.
    unfold mbind at 1, io_bind at 1.
    fold (members_dir base_path).
    rewrite makedirs_ok by (constructor; assumption).
    unfold mbind at 1, io_bind at 1. unfold open_w at 1. cbn [dirs files].
    fold (summary_path self base_path).
    destruct (decide _) as [Hin|_]; [contradiction|].
    unfold mbind at 1, io_bind at 1. unfold makedirs at 1. cbn [dirs files].
    fold (activities_dir self base_path).
    destruct (decide _) as [_|Hnin]; [reflexivity | contradiction].
Qed.


(** X19. A regular file above the directory [members], [base_path] for
    one, makes the export raise [NotADirectoryError] with the file system
    untouched. *)
Theorem dump_json_not_a_directory self (base_path base_URI : string) s
    (above : string) :
  members_dir base_path ∉ dom (files s) →
  above ∈ ancestors (members_dir base_path) →
  above ∈ dom (files s) →
  ∃ child,
    dump_json self base_path base_URI s
    = (Raise (NotADirectoryError child), s).
Proof.
  intros Hmd Hin Hfile.
  destruct (makedirs_refused _ _ _ Hmd Hin Hfile) as [child Hraise].
  exists child. unfold dump_json.
  unfold mbind at 1, io_bind at 1.
  fold (members_dir base_path). now rewrite Hraise.
Qed.

End ExportErrors.

Lemma dump_json_obstructed_witness :
  dump_json jan_active "out" "/"
    (mk_fs ∅ {[members_dir "out" := "not a directory"]})
  = (Raise (FileExistsError (members_dir "out")),
     mk_fs ∅ {[members_dir "out" := "not a directory"]})
  ∧ dump_json jan_active "out" "/"
      (mk_fs {[summary_path jan_active "out"]} ∅)
    = (Raise (IsADirectoryError (summary_path jan_active "out")),
       mk_fs (made_dirs (members_dir "out")
                ∪ {[summary_path jan_active "out"]}) ∅)
  ∧ dump_json jan_active "out" "/"
      (mk_fs ∅ {[activities_dir jan_active "out" := "not a directory"]})
    = (Raise (FileExistsError (activities_dir jan_active "out")),
       mk_fs (made_dirs (members_dir "out") ∪ ∅)
         (<[summary_path jan_active "out" := EmptyString]>
            {[activities_dir jan_active "out" := "not a directory"]})).
Proof.
  split; [|split].
  - destruct (dump_json_obstructed jan_active "out" "/"
                (mk_fs ∅ {[members_dir "out" := "not a directory"]}))
      as (Hfile & _ & _).
    apply Hfile. apply (bool_decide_unpack _). vm_compute. exact I.
  - destruct (dump_json_obstructed jan_active "out" "/"
                (mk_fs {[summary_path jan_active "out"]} ∅))
      as (_ & Hdir & _).
    apply Hdir; apply (bool_decide_unpack _); vm_compute; exact I.
  - destruct (dump_json_obstructed jan_active "out" "/"
                (mk_fs ∅
                   {[activities_dir jan_active "out" := "not a directory"]}))
      as (_ & _ & Hfile).
    apply Hfile; apply (bool_decide_unpack _); vm_compute; exact I.
Defined.


Lemma dump_json_not_a_directory_witness :
  ∃ child,
    dump_json jan_active "out" "/" (mk_fs ∅ {["out" := "a regular file"]})
    = (Raise (NotADirectoryError child),
       mk_fs ∅ {["out" := "a regular file"]}).
Proof.
  apply (dump_json_not_a_directory jan_active "out" "/"
           (mk_fs ∅ {["out" := "a regular file"]}) "out").
  - apply (bool_decide_unpack _). vm_compute. exact I.
  - apply (bool_decide_unpack _). vm_compute. exact I.
  - apply (bool_decide_unpack _). vm_compute. exact I.
Defined.

(** The path [os.mkdir] is refused for, and the directories an export
    into an empty tree makes. *)
Example dump_json_base_path_is_file :
  dump_json jan_active "out" "/" (mk_fs ∅ {["out" := "a regular file"]})
  = (Raise (NotADirectoryError "out/members"),
     mk_fs ∅ {["out" := "a regular file"]}).
Proof. vm_compute. reflexivity. Qed.

Example jan_dirs :
  dirs (snd (dump_json jan_active "out" "/" fs_empty))
  = {["out"; "out/members"; "out/members/e46f4a3245"]}.
Proof. apply (bool_decide_unpack _). vm_compute. exact I. Qed.

Example ancestors_of_paths :
  ancestors "out/members/e46f4a3245" = ["out/members"; "out"]
  ∧ ancestors "/srv/data/members" = ["/srv/data"; "/srv"; "/"]
  ∧ ancestors "out//members/" = ["out"]
  ∧ ancestors "members" = []
  ∧ path_split "out//members" = ("out", "members")
  ∧ path_split "/members" = ("/", "members")
  ∧ path_split "out/members/" = ("out/members", EmptyString).
Proof. vm_compute. repeat split. Qed.

(** ** [dump_json]: what it writes and what it leaves *)

Lemma last_write_None (path : string) (ws : list (string * string)) :
  path ∉ map fst ws → last_write path ws = None.
Proof.
  induction ws as [|w ws IH]; [reflexivity|].
  cbn [map last_write]. rewrite not_elem_of_cons. intros [Hne Hnin].
  rewrite IH by exact Hnin. now rewrite decide_False.
Qed.

Lemma last_write_app (path : string) (ws1 ws2 : list (string * string)) :
  last_write path (ws1 ++ ws2)
  = match last_write path ws2 with
    | Some text => Some text
    | None => last_write path ws1
    end.
Proof.
  induction ws1 as [|w ws1 IH]; cbn [app last_write].
  - destruct (last_write path ws2); reflexivity.
  - rewrite IH. destruct (last_write path ws2); reflexivity.
Qed.

Lemma str_app_inv_tail (s1 s2 t : string) : s1 ++ t = s2 ++ t → s1 = s2.
Proof.
  intros E. apply (f_equal list_ascii_of_string) in E.
  rewrite !list_ascii_app in E. apply app_inv_tail in E.
  apply (f_equal string_of_list_ascii) in E.
  now rewrite !string_of_list_ascii_of_string in E.
Qed.

Section ExportLayout.

Context {Activity : Type} `{ActivityOps Activity}.

Implicit Types (self : Member Activity) (s : fs).

Lemma year_path_inj self (base_path y1 y2 : string) :
  starts_relative y1 → starts_relative y2 →
  year_path self base_path y1 = year_path self base_path y2 → y1 = y2.
Proof.
  intros H1 H2. unfold year_path, path_join.
  rewrite !starts_relative_prefix by now apply starts_relative_app.
  destruct (String.eqb _ EmptyString || ends_with_sep _); intros E.
  - apply String.app_inj in E. now apply str_app_inv_tail in E.
  - do 2 apply String.app_inj in E. now apply str_app_inv_tail in E.
Qed.

Lemma group_key_relative (base_URI : string) (acts : list Activity)
    (y : string) :
  y ∈ map fst (group_activities base_URI acts) → starts_relative y.
Proof.
  intros Hy. unfold group_activities in Hy.
  apply group_foldl_keys in Hy as [Hy | (a & _ & <-)]; [inversion Hy|].
  apply str_of_int_relative.
Qed.

(** What an export leaves at a path it has not written to. *)
Lemma exported_other self (base_path base_URI : string) (d : datetime) s
    (path : string) :
  path ≠ summary_path self base_path →
  (∀ y, y ∈ map fst (group_activities base_URI (activities self)) →
        path ≠ year_path self base_path y) →
  files (exported self base_path base_URI d s) !! path = files s !! path.
Proof.
  intros Hsum Hyears. unfold exported. cbn [files].
  rewrite lookup_write_all, last_write_None; [reflexivity|].
  unfold dump_writes. rewrite map_app, elem_of_app. cbn [map fst].
  rewrite elem_of_cons, list_elem_of_singleton.
  unfold year_writes. rewrite map_map. cbn [fst].
  intros [[E | Hin] | E]; try congruence.
  apply elem_of_map in Hin as (y & -> & Hy).
  apply (Hyears (fst y)); [|reflexivity].
  apply elem_of_map. eauto.
Qed.

(** X8. An export that returns leaves every file but the summary and the
    files of the years as it was, and adds to the directories only
    [members], the directory of the member and the directories above
    them. *)
Theorem dump_json_frame self (base_path base_URI : string) s (r : string)
    (s' : fs) (path : string) :
  dump_json self base_path base_URI s = (Ok r, s') →
  (path ≠ summary_path self base_path →
   (∀ y, y ∈ map fst (group_activities base_URI (activities self)) →
         path ≠ year_path self base_path y) →
   files s' !! path = files s !! path)
  ∧ dirs s'
    = list_to_set
        (activities_dir self base_path
           :: ancestors (activities_dir self base_path))
        ∪ (list_to_set
             (members_dir base_path :: ancestors (members_dir base_path))
             ∪ dirs s).
Proof.
  intros Hrun.
  apply dump_json_returns in Hrun as (d & _ & _ & _ & ->).
  split; [|reflexivity]. apply exported_other.
Qed.

(** X9. The export of a member without activities writes the summary
    file, whose [activities] is the empty mapping, and no other file. *)
Theorem dump_json_no_activities self (base_path base_URI : string) s
    (r : string) (s' : fs) :
  activities self = [] →
  dump_json self base_path base_URI s = (Ok r, s') →
  ∃ d, date_of_birth self = Some d
       ∧ files s'
         = <[summary_path self base_path :=
               Json.dumps false
                 (summary_json self (isoformat d)
                    (replaces_json self base_URI) [])]>
             (files s).
Proof.
  intros Hacts Hrun.
  apply dump_json_returns in Hrun as (d & Hd & _ & _ & ->).
  exists d. split; [exact Hd|].
  unfold exported, dump_writes, summary_text, summary_doc. cbn [files].
  rewrite Hacts. cbn [group_activities foldl year_writes map app year_uris].
  rewrite !write_all_cons. cbn [fst snd write_all foldl].
  apply insert_insert_eq.
Qed.

End ExportLayout.

Lemma dump_json_frame_witness :
  files (snd (dump_json jan_active "out" "/" fs_empty))
    !! "out/members/other.json" = None
  ∧ dirs (snd (dump_json jan_active "out" "/" fs_empty))
    = {["out/members/e46f4a3245"; "out/members"; "out"]}.
Proof.
  destruct (dump_json_frame jan_active "out" "/" fs_empty
              "/members/e46f4a3245.json"
              (snd (dump_json jan_active "out" "/" fs_empty))
              "out/members/other.json") as [Hfile Hdirs];
    [vm_compute; reflexivity|].
  split;
    [|rewrite Hdirs; apply (bool_decide_unpack _); vm_compute; exact I].
  rewrite Hfile; [reflexivity | |].
  - apply (bool_decide_unpack _). vm_compute. exact I.
  - intros y Hy. apply (bool_decide_unpack _).
    revert y Hy. apply Forall_forall.
    apply (bool_decide_unpack _). vm_compute. exact I.
Defined.

Lemma dump_json_no_activities_witness :
  ∃ d, date_of_birth jan_kowalski = Some d
       ∧ files (exported jan_kowalski "out" "/"
                  (mk_datetime 1970 2 3 0 0 0 0) fs_empty)
         = <[summary_path jan_kowalski "out" :=
               Json.dumps false
                 (summary_json jan_kowalski (isoformat d)
                    (replaces_json jan_kowalski "/") [])]>
             (files fs_empty).
Proof.
  apply (dump_json_no_activities jan_kowalski "out" "/" fs_empty
           "/members/e46f4a3245.json").
  - reflexivity.
  - vm_compute. reflexivity.
Defined.

(** ** The links of the summary *)

Lemma dict_set_fresh {V : Type} (k : string) (v : V) (d : dict V) :
  k ∉ map fst d → dict_set k v d = (d ++ [(k, v)])%list.
Proof.
  induction d as [|[k0 v0] d IH]; [reflexivity|].
  cbn [map fst dict_set app]. rewrite not_elem_of_cons. intros [Hne Hnin].
  assert (E : String.eqb k0 k = false) by (apply String.eqb_neq; congruence).
  rewrite E, IH by exact Hnin. reflexivity.
Qed.

Lemma dict_set_foldl {V : Type} (g : string → V) (l : list string)
    (acc : dict V) :
  NoDup l → (∀ k, k ∈ l → k ∉ map fst acc) →
  foldl (fun d k => dict_set k (g k) d) acc l
  = (acc ++ map (fun k => (k, g k)) l)%list.
Proof.
  revert acc. induction l as [|k l IH]; intros acc Hnd Hfresh.
  - cbn. now rewrite app_nil_r.
  - apply NoDup_cons in Hnd as [Hk Hnd]. cbn [foldl map].
    rewrite dict_set_fresh by (apply Hfresh; left).
    rewrite IH; [now rewrite <- app_assoc | exact Hnd |].
    intros k' Hk'. rewrite map_app, elem_of_app. cbn [map fst].
    rewrite list_elem_of_singleton. intros [Hin | ->].
    + apply (Hfresh k'); [now right | exact Hin].
    + contradiction.
Qed.

Lemma dict_get_map_keys {V : Type} (g : string → V) (l : list string)
    (k : string) :
  k ∈ l → dict_get k (map (fun k => (k, g k)) l) = Some (g k).
Proof.
  induction l as [|k0 l IH]; intros Hk; [inversion Hk|].
  cbn [map dict_get]. destruct (String.eqb k0 k) eqn:E.
  - apply String.eqb_eq in E. now subst.
  - apply String.eqb_neq in E. apply IH.
    apply elem_of_cons in Hk as [-> | Hk]; [congruence | exact Hk].
Qed.

Section Links.

Context {Activity : Type} `{ActivityOps Activity}.
Variable dateparser_parse : string → option datetime.

Implicit Types (self : Member Activity) (s : fs).

Lemma uri_relative self : String.prefix "/" (uri self) = false.
Proof. reflexivity. Qed.

Lemma year_relative_relative self (y : string) :
  String.prefix "/" (year_relative self y) = false.
Proof. reflexivity. Qed.

Lemma year_writes_last self (base_path : string)
    (years : dict (dict (list json))) (y : string)
    (by_date : dict (list json)) :
  NoDup (map fst years) →
  (∀ k, k ∈ map fst years → starts_relative k) →
  (y, by_date) ∈ years →
  last_write (year_path self base_path y) (year_writes self base_path years)
  = Some (Json.dumps true (year_json by_date)).
Proof.
  induction years as [|[y0 v0] years IH]; intros Hnd Hrel Hin;
    [inversion Hin|].
  cbn [map fst] in Hnd, Hrel. apply NoDup_cons in Hnd as [Hy0 Hnd].
  assert (Hrel' : ∀ k, k ∈ map fst years → starts_relative k)
    by (intros k Hk; apply Hrel; now right).
  change (year_writes self base_path ((y0, v0) :: years))
    with ((year_path self base_path y0, Json.dumps true (year_json v0))
            :: year_writes self base_path years).
  cbn [last_write fst snd].
  apply elem_of_cons in Hin as [[= <- <-] | Hin].
  - rewrite last_write_None.
    + now rewrite decide_True.
    + unfold year_writes. rewrite map_map. cbn [fst].
      intros Hp. apply elem_of_map in Hp as ([y1 v1] & E & Hin1).
      cbn [fst] in E. apply year_path_inj in E.
      * subst y1. apply Hy0, elem_of_map. exists (y, v1). eauto.
      * apply Hrel. now left.
      * apply Hrel'. apply elem_of_map. exists (y1, v1). eauto.
  - now rewrite (IH Hnd Hrel' Hin).
Qed.

(** The file of a year after an export, for a member whose identifier is
    the digest of its names. *)
Lemma exported_year_file self (base_path base_URI : string) (d : datetime) s
    (y : string) (by_date : dict (list json)) :
  constructed dateparser_parse self →
  (y, by_date) ∈ group_activities base_URI (activities self) →
  files (exported self base_path base_URI d s) !! year_path self base_path y
  = Some (Json.dumps true (year_json by_date)).
Proof.
  intros Hc Hin.
  destruct (constructed_paths dateparser_parse self base_path Hc) as [Hsum Hyear].
  pose proof (group_activities_NoDup base_URI (activities self)) as Hnd.
  assert (Hrel : ∀ k, k ∈ map fst (group_activities base_URI (activities self))
                      → starts_relative k)
    by (intros k; apply group_key_relative).
  assert (Hy : starts_relative y)
    by (apply Hrel, elem_of_map; exists (y, by_date); eauto).
  assert (Hne : summary_path self base_path ≠ year_path self base_path y).
  { rewrite Hsum, (Hyear y Hy). intros E. apply String.app_inj in E.
    unfold uri, year_relative in E. do 2 apply String.app_inj in E.
    discriminate E. }
  unfold exported, dump_writes. cbn [files].
  rewrite lookup_write_all, last_write_app.
  cbn [last_write fst snd]. rewrite (decide_False (P := _ = _)) by exact Hne.
  rewrite (year_writes_last self base_path _ y by_date Hnd Hrel Hin).
  reflexivity.
Qed.

Lemma year_uris_map self (base_URI : string)
    (years : dict (dict (list json))) :
  NoDup (map fst years) →
  year_uris self base_URI years []
  = map (fun k => (k, JStr (base_URI ++ year_relative self k)))
      (map fst years).
Proof.
  intros Hnd. unfold year_uris.
  assert (E := dict_set_foldl
                 (fun k => JStr (base_URI ++ year_relative self k))
                 (map fst years) [] Hnd).
  cbn [app] in E. rewrite <- E by (intros k _ Hk; inversion Hk).
  clear E Hnd. generalize (@nil (string * json)).
  induction years as [|y years IH]; intros acc; [reflexivity|].
  cbn [foldl map].
  unfold year_relative at 2. rewrite <- (str_app_assoc base_URI "members/").
  apply IH.
Qed.

(** X10. For a member whose identifier is the digest of its names, the
    summary has under [activities] one link for each year of the grouping,
    in the order of the years, each the base URI followed by
    [members/<uuid>/<year>.json]; and the file this names under the base
    path was written with the activities of that year by date. *)
Theorem activity_links_resolve self (base_path base_URI : string) s
    (r : string) (s' : fs) (y : string) (by_date : dict (list json)) :
  constructed dateparser_parse self →
  dump_json self base_path base_URI s = (Ok r, s') →
  (y, by_date) ∈ group_activities base_URI (activities self) →
  (∃ d, dict_get "activities"
          (json_members (summary_doc self base_URI d))
        = Some (JObj (year_uris self base_URI
                        (group_activities base_URI (activities self)) [])))
  ∧ map fst (year_uris self base_URI
               (group_activities base_URI (activities self)) [])
    = map fst (group_activities base_URI (activities self))
  ∧ dict_get y
      (year_uris self base_URI
         (group_activities base_URI (activities self)) [])
    = Some (JStr (base_URI ++ year_relative self y))
  ∧ files s' !! path_join base_path (year_relative self y)
    = Some (Json.dumps true (year_json by_date)).
Proof.
  intros Hc Hrun Hin.
  apply dump_json_returns in Hrun as (d & Hd & _ & _ & ->).
  pose proof (group_activities_NoDup base_URI (activities self)) as Hnd.
  assert (Hkey : y ∈ map fst (group_activities base_URI (activities self)))
    by (apply elem_of_map; exists (y, by_date); eauto).
  split; [exists d; reflexivity|].
  rewrite (year_uris_map self base_URI _ Hnd).
  split; [|split].
  - rewrite map_map. cbn [fst]. apply map_id.
  - now apply (dict_get_map_keys
                 (fun k => JStr (base_URI ++ year_relative self k))).
  - rewrite path_join_prefix by apply year_relative_relative.
    destruct (constructed_paths dateparser_parse self base_path Hc) as [_ Hyear].
    rewrite <- Hyear by (eapply group_key_relative; exact Hkey).
    now apply exported_year_file.
Qed.

(** X11. The URI an export returns is the base URI followed by [uri()],
    and the file [uri()] names under the base path holds the summary: the
    mapping of the identifier, the names and the other fields of the
    member. *)
Theorem uri_resolves self (base_path base_URI : string) s (r : string)
    (s' : fs) :
  constructed dateparser_parse self →
  dump_json self base_path base_URI s = (Ok r, s') →
  r = base_URI ++ uri self
  ∧ path_join base_path (uri self) = summary_path self base_path
  ∧ ∃ d, date_of_birth self = Some d
         ∧ files s' !! path_join base_path (uri self)
           = Some (Json.dumps false (summary_doc self base_URI d)).
Proof.
  intros Hc Hrun.
  apply dump_json_returns in Hrun as (d & Hd & _ & -> & ->).
  destruct (constructed_paths dateparser_parse self base_path Hc) as [Hsum _].
  assert (Hpath : path_join base_path (uri self)
                  = summary_path self base_path)
    by (rewrite Hsum; apply path_join_prefix, uri_relative).
  split; [|split].
  - unfold uri. rewrite str_app_assoc. reflexivity.
  - exact Hpath.
  - exists d. split; [exact Hd|]. rewrite Hpath.
    unfold exported, dump_writes. cbn [files].
    rewrite lookup_write_all, last_write_app. cbn [last_write fst snd].
    now rewrite decide_True.
Qed.

End Links.

Lemma activity_links_resolve_witness :
  dict_get "2022"
    (year_uris jan_active "/"
       (group_activities "/" (activities jan_active)) [])
  = Some (JStr ("/" ++ year_relative jan_active "2022"))
  ∧ files jan_exported !! path_join "out" (year_relative jan_active "2022")
    = Some (Json.dumps true
              (year_json [("2022-03-03T09:00:00",
                           [Activity_dict vote_2022 "/"])])).
Proof.
  destruct (activity_links_resolve IsoParse.parse jan_active "out" "/"
              fs_empty "/members/e46f4a3245.json" jan_exported "2022"
              [("2022-03-03T09:00:00", [Activity_dict vote_2022 "/"])])
    as (_ & _ & Hlink & Hfile).
  - unfold jan_active, jan_kowalski.
    do 2 apply constructed_post_activity. apply constructed_init.
  - vm_compute. reflexivity.
  - assert (E : group_activities "/" (activities jan_active)
                = [("2021", [("2021-01-01T10:00:00",
                              [Activity_dict question_2021 "/"])]);
                   ("2022", [("2022-03-03T09:00:00",
                              [Activity_dict vote_2022 "/"])])])
      by (vm_compute; reflexivity).
    rewrite E. right. left.
  - split; [exact Hlink | exact Hfile].
Defined.

Lemma uri_resolves_witness :
  "/members/e46f4a3245.json" = "/" ++ uri jan_active
  ∧ path_join "out" (uri jan_active) = summary_path jan_active "out"
  ∧ ∃ d, date_of_birth jan_active = Some d
         ∧ files jan_exported !! path_join "out" (uri jan_active)
           = Some (Json.dumps false (summary_doc jan_active "/" d)).
Proof.
  apply (uri_resolves IsoParse.parse jan_active "out" "/" fs_empty
           "/members/e46f4a3245.json" jan_exported).
  - unfold jan_active, jan_kowalski.
    do 2 apply constructed_post_activity. apply constructed_init.
  - vm_compute. reflexivity.
Defined.

(** ** Replacements, namesakes and snapshots *)

Section Snapshots.

Context {Activity : Type} `{ActivityOps Activity}.
Variable dateparser_parse : string → option datetime.
Variable json_loads : string → option json.

Implicit Types (self other : Member Activity) (s : fs).


(** X13. The identifier is taken from the three names put together with
    nothing between them: two members for whom first name, last name and
    province run together to the same text have the same identifier, the
    same [uri()] and the same summary file, also when no name of the one is
    a name of the other. *)
Theorem uuid_of_concatenation self other (base_path : string) :
  constructed dateparser_parse self →
  constructed dateparser_parse other →
  first_name self ++ last_name self ++ province self
  = first_name other ++ last_name other ++ province other →
  uuid self = uuid other
  ∧ uri self = uri other
  ∧ summary_path self base_path = summary_path other base_path.
Proof.
  intros Hs Ho Hcat.
  assert (E : uuid self = uuid other).
  { rewrite (constructed_uuid _ _ Hs), (constructed_uuid _ _ Ho).
    unfold identity_digest. rewrite <- !encode_utf8_app, Hcat.
    reflexivity. }
  unfold uri, summary_path. rewrite E. repeat split.
Qed.

(** X14. The export of a member after the export of another member with
    the same identifier, under the same base path, leaves the summary of
    the second where the summary of the first was. *)
Theorem dump_json_overwrites_namesake self other
    (base_path base_URI : string) s (r1 r2 : string) (s1 s2 : fs) :
  uuid self = uuid other →
  dump_json self base_path base_URI s = (Ok r1, s1) →
  dump_json other base_path base_URI s1 = (Ok r2, s2) →
  r1 = r2
  ∧ ∃ d1 d2,
      date_of_birth self = Some d1
      ∧ date_of_birth other = Some d2
      ∧ files s1 !! summary_path self base_path
        = Some (Json.dumps false (summary_doc self base_URI d1))
      ∧ files s2 !! summary_path self base_path
        = Some (Json.dumps false (summary_doc other base_URI d2)).
Proof.
  intros Hu Hrun1 Hrun2.
  apply dump_json_returns in Hrun1 as (d1 & Hd1 & _ & -> & ->).
  apply dump_json_returns in Hrun2 as (d2 & Hd2 & _ & -> & ->).
  assert (Hpath : summary_path self base_path = summary_path other base_path)
    by (unfold summary_path; now rewrite Hu).
  split; [now rewrite Hu|]. exists d1, d2.
  split; [exact Hd1|]. split; [exact Hd2|]. split.
  - apply exported_summary.
  - rewrite Hpath. apply exported_summary.
Qed.

(** X15. An export made again after an activity was posted returns the
    same URI and leaves the summary of the member with the activity; for a
    member whose identifier is the digest of its names the file of the year
    of the activity holds the activities of that year, the new one among
    them. *)
Theorem dump_json_after_post_activity self (activity : Activity)
    (base_path base_URI : string) s (r1 r2 : string) (s1 s2 : fs)
    (by_date : dict (list json)) :
  dump_json self base_path base_URI s = (Ok r1, s1) →
  dump_json (post_activity self activity) base_path base_URI s1
  = (Ok r2, s2) →
  r2 = r1
  ∧ (∃ d, date_of_birth self = Some d
          ∧ files s2 !! summary_path self base_path
            = Some (Json.dumps false
                      (summary_doc (post_activity self activity)
                         base_URI d)))
  ∧ (constructed dateparser_parse self →
     (year_key activity, by_date)
       ∈ group_activities base_URI (activities self ++ [activity])%list →
     files s2 !! year_path self base_path (year_key activity)
     = Some (Json.dumps true (year_json by_date))
     ∧ Activity_dict activity base_URI
         ∈ default []
             (dict_get (isoformat (Activity_date activity)) by_date)).
Proof.
  intros Hrun1 Hrun2.
  apply dump_json_returns in Hrun1 as (d1 & Hd1 & _ & -> & ->).
  apply dump_json_returns in Hrun2 as (d2 & Hd2 & _ & -> & ->).
  cbn [post_activity date_of_birth uuid] in Hd2.
  split; [reflexivity|]. split.
  - exists d2. split; [exact Hd2|].
    apply (exported_summary (post_activity self activity)).
  - intros Hc Hin. split.
    + apply (exported_year_file dateparser_parse
               (post_activity self activity)); [|exact Hin].
      now apply constructed_post_activity.
    + pose proof (dict_get2_foldl base_URI (year_key activity)
                    (isoformat (Activity_date activity)) []
                    (activities self ++ [activity])%list) as Hget.
      fold (group_activities base_URI (activities self ++ [activity])%list)
        in Hget.
      unfold dict_get2 in Hget.
      assert (Hy : dict_get (year_key activity)
                     (group_activities base_URI
                        (activities self ++ [activity])%list)
                   = Some by_date).
      { pose proof (group_activities_NoDup base_URI
                      (activities self ++ [activity])%list) as Hnd.
        revert Hnd Hin.
        generalize (group_activities base_URI
                      (activities self ++ [activity])%list) as years.
        induction years as [|[k v] years IH]; intros Hnd Hin;
          [inversion Hin|].
        cbn [map fst] in Hnd. apply NoDup_cons in Hnd as [Hk Hnd].
        cbn [dict_get]. apply elem_of_cons in Hin as [[= <- <-] | Hin].
        - now rewrite String.eqb_refl.
        - destruct (String.eqb k (year_key activity)) eqn:E.
          + apply String.eqb_eq in E. subst k. exfalso. apply Hk.
            apply elem_of_map. exists (year_key activity, by_date). eauto.
          + now apply IH. }
      rewrite Hy in Hget. cbn [mbind option_bind] in Hget. rewrite Hget.
      unfold bucket. rewrite filter_app, map_app, filter_cons.
      rewrite decide_True by (split; reflexivity).
      cbn [filter map].
      assert (Hext : ∀ l x, bucket_extend None (l ++ [x])%list
                            = Some (l ++ [x])%list)
        by (intros [|b l] x; reflexivity).
      cbn [dict_get mbind option_bind]. rewrite Hext.
      cbn [default from_option id]. apply elem_of_app. right. left.
Qed.

(** X16. A member that is made again from its summary has the party, the
    province, the language, the gender and the two URLs of the member
    exported, but neither its alternative names nor its activities nor its
    replacements. *)
Theorem summary_is_partial self (base_path base_URI : string) s
    (r : string) (s' : fs) (d : datetime) :
  constructed dateparser_parse self →
  dump_json self base_path base_URI s = (Ok r, s') →
  date_of_birth self = Some d →
  json_loads (summary_text self base_URI d)
  = Some (summary_doc self base_URI d) →
  ∃ entry (again : Member Activity),
    read_summary json_loads self base_path s' = Some entry
    ∧ from_json dateparser_parse entry = Ok again
    ∧ party again = party self
    ∧ province again = province self
    ∧ language again = language self
    ∧ gender again = gender self
    ∧ url again = url self
    ∧ photo_url again = photo_url self
    ∧ alternative_names again = None
    ∧ activities again = []
    ∧ replaces again = [].
Proof.
  intros Hc Hrun Hd Hloads.
  destruct (summary_round_trip dateparser_parse json_loads self base_path
              base_URI s r s' d Hc Hrun Hd Hloads) as (entry & Hread & Hfrom).
  exists entry. eexists. split; [exact Hread|]. split; [exact Hfrom|].
  repeat split.
Qed.

End Snapshots.


Lemma uuid_of_concatenation_witness :
  first_name anne_marie ≠ first_name ann_emarie
  ∧ last_name anne_marie ≠ last_name ann_emarie
  ∧ uuid anne_marie = uuid ann_emarie
  ∧ uri anne_marie = uri ann_emarie
  ∧ summary_path anne_marie "out" = summary_path ann_emarie "out".
Proof.
  split; [discriminate|]. split; [discriminate|].
  apply (uuid_of_concatenation IsoParse.parse anne_marie ann_emarie "out").
  - unfold anne_marie. apply constructed_init.
  - unfold ann_emarie. apply constructed_init.
  - vm_compute. reflexivity.
Defined.

Lemma dump_json_overwrites_namesake_witness :
  "/members/e46f4a3245.json" = "/members/e46f4a3245.json"
  ∧ ∃ d1 d2,
      date_of_birth jan_active = Some d1
      ∧ date_of_birth jan_namesake = Some d2
      ∧ files jan_exported !! summary_path jan_active "out"
        = Some (Json.dumps false (summary_doc jan_active "/" d1))
      ∧ files (exported jan_namesake "out" "/"
                 (mk_datetime 1988 11 30 0 0 0 0) jan_exported)
          !! summary_path jan_active "out"
        = Some (Json.dumps false (summary_doc jan_namesake "/" d2)).
Proof.
  apply (dump_json_overwrites_namesake jan_active jan_namesake "out" "/"
           fs_empty "/members/e46f4a3245.json" "/members/e46f4a3245.json"
           jan_exported
           (exported jan_namesake "out" "/"
              (mk_datetime 1988 11 30 0 0 0 0) jan_exported)).
  - vm_compute. reflexivity.
  - vm_compute. reflexivity.
  - vm_compute. reflexivity.
Defined.

Lemma dump_json_after_post_activity_witness :
  files (exported (post_activity jan_kowalski question_2021) "out" "/"
           (mk_datetime 1970 2 3 0 0 0 0)
           (exported jan_kowalski "out" "/"
              (mk_datetime 1970 2 3 0 0 0 0) fs_empty))
    !! year_path jan_kowalski "out" (year_key question_2021)
  = Some (Json.dumps true
            (year_json [("2021-01-01T10:00:00",
                         [Activity_dict question_2021 "/"])])).
Proof.
  destruct (dump_json_after_post_activity IsoParse.parse jan_kowalski
              question_2021 "out" "/" fs_empty
              "/members/e46f4a3245.json" "/members/e46f4a3245.json"
              (exported jan_kowalski "out" "/"
                 (mk_datetime 1970 2 3 0 0 0 0) fs_empty)
              (exported (post_activity jan_kowalski question_2021) "out" "/"
                 (mk_datetime 1970 2 3 0 0 0 0)
                 (exported jan_kowalski "out" "/"
                    (mk_datetime 1970 2 3 0 0 0 0) fs_empty))
              [("2021-01-01T10:00:00", [Activity_dict question_2021 "/"])])
    as (_ & _ & Hyear).
  - vm_compute. reflexivity.
  - vm_compute. reflexivity.
  - apply Hyear.
    + unfold jan_kowalski. apply constructed_init.
    + assert (E : group_activities "/"
                    (activities jan_kowalski ++ [question_2021])%list
                  = [("2021", [("2021-01-01T10:00:00",
                                [Activity_dict question_2021 "/"])])])
        by (vm_compute; reflexivity).
      rewrite E. left.
Defined.

Lemma summary_is_partial_witness :
  ∃ entry (again : Member titled_activity),
    read_summary JsonLoad.loads jan_active "out" jan_exported = Some entry
    ∧ from_json IsoParse.parse entry = Ok again
    ∧ party again = party jan_active
    ∧ province again = province jan_active
    ∧ language again = language jan_active
    ∧ gender again = gender jan_active
    ∧ url again = url jan_active
    ∧ photo_url again = photo_url jan_active
    ∧ alternative_names again = None
    ∧ activities again = []
    ∧ replaces again = [].
Proof.
  apply (summary_is_partial IsoParse.parse JsonLoad.loads jan_active "out"
           "/" fs_empty "/members/e46f4a3245.json" jan_exported
           (mk_datetime 1970 2 3 0 0 0 0)).
  - unfold jan_active, jan_kowalski.
    do 2 apply constructed_post_activity. apply constructed_init.
  - vm_compute. reflexivity.
  - reflexivity.
  - vm_compute. reflexivity.
Defined.

(** ** The order of the years and of the dates *)

Example first_occurrences_ex :
  first_occurrences ["2022"; "2021"; "2022"; "2020"; "2021"]
  = ["2022"; "2021"; "2020"].
Proof. vm_compute. reflexivity. Qed.

Lemma first_occurrences_snoc (l : list string) (k : string) :
  first_occurrences (l ++ [k])
  = if decide (k ∈ l) then first_occurrences l
    else (first_occurrences l ++ [k])%list.
Proof.
  unfold first_occurrences. rewrite reverse_snoc. cbn [remove_dups].
  destruct (decide_rel elem_of k (reverse l)) as [Hrev|Hrev];
    destruct (decide (k ∈ l)) as [Hin|Hnin].
  - reflexivity.
  - exfalso. now apply Hnin, elem_of_reverse.
  - exfalso. now apply Hrev, elem_of_reverse.
  - now rewrite reverse_cons.
Qed.

Lemma elem_of_first_occurrences (l : list string) (k : string) :
  k ∈ first_occurrences l ↔ k ∈ l.
Proof.
  unfold first_occurrences.
  now rewrite elem_of_reverse, elem_of_remove_dups, elem_of_reverse.
Qed.

Section GroupingOrder.

Context {Activity : Type} `{ActivityOps Activity}.

Lemma defaultdict_update_keys_snoc {V : Type} (dflt : V) (k : string)
    (f : V → V) (d : dict V) (l : list string) :
  map fst d = first_occurrences l →
  map fst (defaultdict_update dflt k f d) = first_occurrences (l ++ [k]).
Proof.
  intros Hkeys. rewrite defaultdict_update_keys, first_occurrences_snoc.
  destruct (dict_get k d) eqn:E.
  - rewrite decide_True; [exact Hkeys|].
    apply elem_of_first_occurrences. rewrite <- Hkeys.
    destruct (decide (k ∈ map fst d)) as [Hin|Hnin]; [exact Hin|].
    apply dict_get_None_keys in Hnin. congruence.
  - apply dict_get_None_keys in E. rewrite Hkeys in E.
    rewrite elem_of_first_occurrences in E.
    rewrite decide_False by exact E. now rewrite Hkeys.
Qed.

(** X17. The years of the grouping, and so the files of the years and the
    links of the summary, come in the order in which the years first occur
    among the activities, and under a year the dates come in the order in
    which they first occur among the activities of that year: nothing is
    sorted. *)
Theorem group_activities_order (base_URI : string) (acts : list Activity)
    (y : string) (by_date : dict (list json)) :
  map fst (group_activities base_URI acts)
  = first_occurrences
      (map (fun a => str_of_int (year (Activity_date a))) acts)
  ∧ (dict_get y (group_activities base_URI acts) = Some by_date →
     map fst by_date
     = first_occurrences
         (map (fun a => isoformat (Activity_date a))
            (filter (fun a => str_of_int (year (Activity_date a)) = y)
               acts))).
Proof.
  split.
  - induction acts as [|a acts IH] using rev_ind; [reflexivity|].
    unfold group_activities in *. rewrite foldl_app, map_app.
    cbn [foldl map]. unfold group_step at 1.
    now apply defaultdict_update_keys_snoc.
  - revert by_date.
    induction acts as [|a acts IH] using rev_ind; intros by_date;
      [discriminate|].
    unfold group_activities in *. rewrite foldl_app. cbn [foldl].
    unfold group_step at 1. rewrite dict_get_defaultdict_update.
    rewrite filter_app, filter_cons, filter_nil.
    destruct (decide (str_of_int (year (Activity_date a)) = y)) as [Hy|Hy].
    + intros [= <-]. rewrite map_app. cbn [map].
      apply defaultdict_update_keys_snoc.
      destruct (dict_get y (foldl (group_step base_URI) [] acts))
        as [inner|] eqn:E; cbn [default from_option id].
      * now apply IH.
      * apply dict_get_None_keys in E. rewrite group_foldl_keys in E.
        assert (Hnone : filter
                          (fun a => str_of_int (year (Activity_date a)) = y)
                          acts = []).
        { apply elem_of_nil_inv. intros a' Ha'.
          apply list_elem_of_filter in Ha' as [Hy' Ha'].
          apply E. right. exists a'. eauto. }
        now rewrite Hnone.
    + rewrite app_nil_r. apply IH.
Qed.

End GroupingOrder.

Lemma group_activities_order_witness :
  map fst (group_activities "/" (activities jan_active)) = ["2021"; "2022"]
  ∧ map fst [("2021-01-01T10:00:00", [Activity_dict question_2021 "/"])]
    = first_occurrences
        (map (fun a => isoformat (Activity_date a))
           (filter (fun a => str_of_int (year (Activity_date a)) = "2021")
              (activities jan_active))).
Proof.
  destruct (group_activities_order "/" (activities jan_active) "2021"
              [("2021-01-01T10:00:00", [Activity_dict question_2021 "/"])])
    as [Hyears Hdates].
  split.
  - rewrite Hyears. vm_compute. reflexivity.
  - apply Hdates. vm_compute. reflexivity.
Defined.

(** ** Members with different identifiers *)

Lemma str_app_same_length (s1 s2 t1 t2 : string) :
  s1 ++ t1 = s2 ++ t2 → String.length s1 = String.length s2 → s1 = s2.
Proof.
  revert s2. induction s1 as [|c s1 IH]; intros [|c2 s2] E Hlen;
    try discriminate Hlen.
  - reflexivity.
  - change (String c (s1 ++ t1) = String c2 (s2 ++ t2)) in E.
    injection E as -> E. f_equal. apply (IH s2 E).
    cbn in Hlen. lia.
Qed.

Section OtherMembers.

Context {Activity : Type} `{ActivityOps Activity}.
Variable dateparser_parse : string → option datetime.

Implicit Types (self other : Member Activity) (s : fs).

Lemma paths_apart self other (base_path : string) (y y' : string) :
  constructed dateparser_parse self →
  constructed dateparser_parse other →
  uuid self ≠ uuid other →
  starts_relative y → starts_relative y' →
  summary_path self base_path ≠ summary_path other base_path
  ∧ summary_path self base_path ≠ year_path other base_path y'
  ∧ year_path self base_path y ≠ summary_path other base_path
  ∧ year_path self base_path y ≠ year_path other base_path y'.
Proof.
  intros Hs Ho Hne Hy Hy'.
  destruct (constructed_paths dateparser_parse self base_path Hs)
    as [Hsum Hyear].
  destruct (constructed_paths dateparser_parse other base_path Ho)
    as [Hsum' Hyear'].
  destruct (uuid_shape dateparser_parse self Hs) as (_ & _ & _ & Hlen).
  destruct (uuid_shape dateparser_parse other Ho) as (_ & _ & _ & Hlen').
  rewrite Hsum, Hsum', (Hyear y Hy), (Hyear' y' Hy').
  unfold uri, year_relative.
  repeat split; intros E; do 2 apply String.app_inj in E;
    apply str_app_same_length in E; congruence.
Qed.

(** X18. The export of a member leaves the summary and the files of the
    years of every member with another identifier as they were, under the
    same base path. *)
Theorem dump_json_other_member self other (base_path base_URI : string) s
    (r : string) (s' : fs) (y : string) :
  constructed dateparser_parse self →
  constructed dateparser_parse other →
  uuid self ≠ uuid other →
  dump_json other base_path base_URI s = (Ok r, s') →
  files s' !! summary_path self base_path
  = files s !! summary_path self base_path
  ∧ (starts_relative y →
     files s' !! year_path self base_path y
     = files s !! year_path self base_path y).
Proof.
  intros Hs Ho Hne Hrun.
  apply dump_json_returns in Hrun as (d & _ & _ & _ & ->).
  assert (Hzero : starts_relative "0")
    by (eexists _, _; split; [reflexivity | discriminate]).
  split.
  - apply exported_other.
    + apply (paths_apart self other base_path "0" "0"); assumption.
    + intros y' Hy'.
      apply (paths_apart self other base_path "0" y'); try assumption.
      eapply group_key_relative. exact Hy'.
  - intros Hy. apply exported_other.
    + apply (paths_apart self other base_path y "0"); assumption.
    + intros y' Hy'.
      apply (paths_apart self other base_path y y'); try assumption.
      eapply group_key_relative. exact Hy'.
Qed.

End OtherMembers.

Lemma dump_json_other_member_witness :
  files (exported jozef_nowak "out" "/" (mk_datetime 1975 4 12 0 0 0 0)
           jan_exported) !! summary_path jan_active "out"
  = files jan_exported !! summary_path jan_active "out"
  ∧ files (exported jozef_nowak "out" "/" (mk_datetime 1975 4 12 0 0 0 0)
             jan_exported) !! year_path jan_active "out" "2021"
    = files jan_exported !! year_path jan_active "out" "2021".
Proof.
  destruct (dump_json_other_member IsoParse.parse jan_active jozef_nowak
              "out" "/" jan_exported
              (("/" ++ "members/") ++ uuid jozef_nowak ++ ".json")
              (exported jozef_nowak "out" "/"
                 (mk_datetime 1975 4 12 0 0 0 0) jan_exported) "2021")
    as [Hsum Hyear].
  - unfold jan_active, jan_kowalski.
    do 2 apply constructed_post_activity. apply constructed_init.
  - unfold jozef_nowak. apply constructed_init.
  - vm_compute. discriminate.
  - vm_compute. reflexivity.
  - split; [exact Hsum|]. apply Hyear.
    eexists _, _. split; [reflexivity | discriminate].
Defined.
